(** * medlab-sim: the procedure-progression state machines

    Two React applications live in the repository:

    - the blood-smear preparation simulation (module [BloodSmear]), a
      component with nine [useState] cells, four event handlers
      ([handleDragStart], [handleDrop], [handleCreateSmear],
      [handleAction]), one auto-advance effect and [resetSimulation];
    - the 3-D safety and equipment-handling simulation (module
      [SafetyLab], file [src/App.js]), a component with a [simState]
      object, a step counter, pointer handlers and a step-progression
      effect.

    Both are embedded as explicit state passing.  A handler is a function
    from the world (React state, clock, pending [setTimeout] callbacks) to
    the world; the [setX] calls of one callback are applied together, as
    React batches them, so one callback is one transition.  Reads inside a
    handler go to the state captured by the closure, writes accumulate on
    the state being built.  Sounds, canvas drawing and console logging are
    presentation and are left out. *)

From Stdlib Require Import String Ascii List Bool Arith NArith Lia.
Import ListNotations.
Open Scope string_scope.

(** ** The JavaScript timer queue

    Time is counted in milliseconds.  [setTimeout(f, ms)] files the
    callback under the deadline [now + ms].
    The browser runs pending callbacks by deadline, and callbacks with the
    same deadline in the order they were filed; [schedule] keeps the queue
    in that order, so the next callback to run is the head. *)

Section TimerQueue.

Context {A : Type}.

Fixpoint schedule (d : N) (a : A) (q : list (N * A)) : list (N * A) :=
  match q with
  | [] => [(d, a)]
  | (d', a') :: q' =>
      if N.leb d' d then (d', a') :: schedule d a q' else (d, a) :: q
  end.

(** A user event can be delivered at time [t] when no pending callback
    is due strictly before [t]. *)
Definition none_due_before (t : N) (q : list (N * A)) : bool :=
  forallb (fun e => N.leb t (fst e)) q.

End TimerQueue.

(** ** JavaScript values used by both programs *)

(** [!x] for a value that is [null] or a string: [null] and the empty
    string are falsy. *)
Definition truthy (x : option string) : bool :=
  match x with
  | None => false
  | Some s => negb (s =? "")
  end.

(** [a === b] where both sides are [null] or a string. *)
Definition strict_eq (a b : option string) : bool :=
  match a, b with
  | None, None => true
  | Some x, Some y => x =? y
  | _, _ => false
  end.

(** [a === b] where [a] is [null] or a string and [b] is [undefined] or a
    string ([None] stands for [null] on the left and for [undefined] on
    the right, which are never strictly equal). *)
Definition strict_eq_undef (a b : option string) : bool :=
  match a, b with
  | Some x, Some y => x =? y
  | _, _ => false
  end.

(** The one-character string holding a double quote. *)
Definition dquote : string := String (ascii_of_nat 34) EmptyString.

(** [s.replace(/_/g, ' ')] *)
Fixpoint underscores_to_spaces (s : string) : string :=
  match s with
  | EmptyString => EmptyString
  | String c r =>
      String (if Ascii.eqb c "_"%char then " "%char else c)
             (underscores_to_spaces r)
  end.

(** * The blood-smear preparation simulation (src/unnamed/part_000) *)

Module BloodSmear.

(** One entry of [labProcedureSteps].  [action] and [target] are [null]
    or a string; [tool] is a string or missing ([undefined]); the
    instruction text is display only and is not kept. *)
Record Step := mkStep {
  id : string;
  action : option string;
  tool : option string;
  target : option string;
  nextStep : option string
}.

Definition labProcedureSteps : list Step :=
  [ mkStep "intro" None None None (Some "gather_equipment");
    mkStep "gather_equipment" (Some "pick_up_tool") None
           (Some "alcohol_swab") (Some "clean_finger");
    mkStep "clean_finger" (Some "use_tool_on_target") (Some "alcohol_swab")
           (Some "finger") (Some "prick_finger");
    mkStep "prick_finger" (Some "pick_up_tool") None
           (Some "lancet") (Some "apply_lancet");
    mkStep "apply_lancet" (Some "use_tool_on_target") (Some "lancet")
           (Some "finger") (Some "wipe_first_drop");
    mkStep "wipe_first_drop" (Some "pick_up_tool") None
           (Some "alcohol_swab") (Some "wipe_blood");
    mkStep "wipe_blood" (Some "use_tool_on_target") (Some "alcohol_swab")
           (Some "blood_drop") (Some "wait_for_second_drop");
    mkStep "wait_for_second_drop" (Some "auto_advance_blood_drop") None
           None (Some "collect_second_drop");
    mkStep "collect_second_drop" (Some "pick_up_tool") None
           (Some "clean_slide") (Some "collect_blood_on_slide");
    mkStep "collect_blood_on_slide" (Some "use_tool_on_target")
           (Some "clean_slide") (Some "blood_drop") (Some "prepare_smear");
    mkStep "prepare_smear" (Some "pick_up_tool") None
           (Some "spreader_slide") (Some "perform_smear");
    mkStep "perform_smear" (Some "click_create_smear") None
           (Some "create_smear_button") (Some "air_dry");
    mkStep "air_dry" (Some "next_step_button") None
           (Some "next_button") (Some "microscope_observation");
    mkStep "microscope_observation" (Some "view_microscope") None
           (Some "microscope_icon") (Some "procedure_complete");
    mkStep "procedure_complete" (Some "next_step_button") None
           (Some "next_button") (Some "video_demonstration");
    mkStep "video_demonstration" (Some "next_step_button") None
           (Some "next_button") (Some "mcq_challenge");
    mkStep "mcq_challenge" (Some "mcq_handled_internally") None
           None (Some "final_completion");
    mkStep "final_completion" None None None None ].

(** The [useState] cells of the component. *)
Record State := mkState {
  currentStep : nat;
  score : nat;
  feedbackMessage : string;
  isCorrectAction : option bool;
  activeTool : option string;
  bloodDropVisible : bool;
  slideHasBlood : bool;
  smearQuality : option string;
  showMicroscopeView : bool
}.

Definition initialState : State :=
  mkState 0 0 "" None None false false None false.

(** The setters. *)
Definition setCurrentStep (n : nat) (s : State) : State :=
  mkState n (score s) (feedbackMessage s) (isCorrectAction s)
          (activeTool s) (bloodDropVisible s) (slideHasBlood s)
          (smearQuality s) (showMicroscopeView s).
Definition setScore (n : nat) (s : State) : State :=
  mkState (currentStep s) n (feedbackMessage s) (isCorrectAction s)
          (activeTool s) (bloodDropVisible s) (slideHasBlood s)
          (smearQuality s) (showMicroscopeView s).
Definition setFeedbackMessage (m : string) (s : State) : State :=
  mkState (currentStep s) (score s) m (isCorrectAction s)
          (activeTool s) (bloodDropVisible s) (slideHasBlood s)
          (smearQuality s) (showMicroscopeView s).
Definition setIsCorrectAction (b : option bool) (s : State) : State :=
  mkState (currentStep s) (score s) (feedbackMessage s) b
          (activeTool s) (bloodDropVisible s) (slideHasBlood s)
          (smearQuality s) (showMicroscopeView s).
Definition setActiveTool (t : option string) (s : State) : State :=
  mkState (currentStep s) (score s) (feedbackMessage s) (isCorrectAction s)
          t (bloodDropVisible s) (slideHasBlood s)
          (smearQuality s) (showMicroscopeView s).
Definition setBloodDropVisible (b : bool) (s : State) : State :=
  mkState (currentStep s) (score s) (feedbackMessage s) (isCorrectAction s)
          (activeTool s) b (slideHasBlood s)
          (smearQuality s) (showMicroscopeView s).
Definition setSlideHasBlood (b : bool) (s : State) : State :=
  mkState (currentStep s) (score s) (feedbackMessage s) (isCorrectAction s)
          (activeTool s) (bloodDropVisible s) b
          (smearQuality s) (showMicroscopeView s).
Definition setSmearQuality (q : option string) (s : State) : State :=
  mkState (currentStep s) (score s) (feedbackMessage s) (isCorrectAction s)
          (activeTool s) (bloodDropVisible s) (slideHasBlood s)
          q (showMicroscopeView s).
Definition setShowMicroscopeView (b : bool) (s : State) : State :=
  mkState (currentStep s) (score s) (feedbackMessage s) (isCorrectAction s)
          (activeTool s) (bloodDropVisible s) (slideHasBlood s)
          (smearQuality s) b.

Definition State_eq_dec (a b : State) : {a = b} + {a <> b}.
Proof.
  decide equality; try apply Bool.bool_dec; try apply Nat.eq_dec;
    try apply string_dec;
    decide equality; try apply Bool.bool_dec; apply string_dec.
Defined.

(** The callbacks handed to [setTimeout]. *)
Inductive Callback :=
| Advance        (* setCurrentStep(prev => prev + 1); clear the feedback *)
| ClearFeedback  (* setFeedbackMessage(''); setIsCorrectAction(null) *)
| AutoStep       (* handleAction(currentProcedure.target), auto effect *)
| QuizComplete (isAnswerCorrect : bool). (* onQuizComplete(isCorrect) *)

Record World := mkWorld {
  st : State;
  now : N;
  timers : list (N * Callback)
}.

Definition initialWorld : World := mkWorld initialState 0 [].

Definition upd (f : State -> State) (w : World) : World :=
  mkWorld (f (st w)) (now w) (timers w).

Definition setTimeout (c : Callback) (ms : N) (w : World) : World :=
  mkWorld (st w) (now w) (schedule (now w + ms)%N c (timers w)).

(** A handler returns, or throws a [TypeError] on reading a property of
    [undefined] or [null]; the updates queued before the throw stay. *)
Inductive Outcome :=
| Returned (w : World)
| TypeError (w : World).

Definition world_of (o : Outcome) : World :=
  match o with Returned w => w | TypeError w => w end.

Definition clearFeedback (s : State) : State :=
  setIsCorrectAction None (setFeedbackMessage "" s).

Definition currentProcedure (s : State) : option Step :=
  nth_error labProcedureSteps (currentStep s).


(** The [let] variables of [handleDrop] and [handleAction]. *)
Record Locals := mkLocals {
  newScore : nat;
  message : string;
  isCorrect : bool;
  proceedToNextStep : bool
}.

(** *** [handleDrop]

    The [switch (currentProcedure.id)] inside the validated branch.
    [s] is the state the closure captured, [acc] the state under
    construction. *)
Definition dropSwitch (p : Step) (s acc : State) : State * Locals :=
  if id p =? "clean_finger" then
    (acc, mkLocals (score s + 10) "Finger cleaned successfully!" true true)
  else if id p =? "apply_lancet" then
    (setBloodDropVisible true acc,
     mkLocals (score s + 20) "Finger pricked! A blood drop appeared."
              true true)
  else if id p =? "wipe_blood" then
    if bloodDropVisible s then
      (setBloodDropVisible false acc,
       mkLocals (score s + 10) "First blood drop wiped away. Good!"
                true true)
    else
      (acc, mkLocals (score s) "There is no blood drop to wipe yet."
                     false false)
  else if id p =? "collect_blood_on_slide" then
    if bloodDropVisible s then
      (setSlideHasBlood true (setBloodDropVisible false acc),
       mkLocals (score s + 20) "Blood collected on the slide!" true true)
    else
      (acc,
       mkLocals (score s)
                "There is no blood drop to collect on the slide yet."
                false false)
  else
    (acc, mkLocals (score s) "Invalid action for this specific step."
                   false false).

(** The validation of a drop: the [if]/[else] around the switch. *)
Definition dropVerdict (targetId : string) (p : Step) (s acc : State)
  : State * Locals :=
  if strict_eq (action p) (Some "use_tool_on_target")
     && strict_eq_undef (activeTool s) (tool p)
     && strict_eq (target p) (Some targetId)
  then dropSwitch p s acc
  else (acc, mkLocals (score s) "Incorrect action or target for this step."
                      false false).

Definition handleDrop (targetId : string) (w : World) : Outcome :=
  let s := st w in
  let w0 := upd clearFeedback w in
  if negb (truthy (activeTool s)) then
    Returned
      (setTimeout ClearFeedback 3000%N
         (upd (setIsCorrectAction (Some false))
            (upd (setFeedbackMessage "Please pick up a tool first.") w0)))
  else
    match currentProcedure s with
    | None => TypeError w0
    | Some p =>
        let '(acc, l) := dropVerdict targetId p s (st w0) in
        let acc :=
          setIsCorrectAction (Some (isCorrect l))
            (setFeedbackMessage (message l)
               (setScore (newScore l) (setActiveTool None acc))) in
        let w1 := mkWorld acc (now w) (timers w) in
        Returned (if proceedToNextStep l
                  then setTimeout Advance 1500%N w1
                  else setTimeout ClearFeedback 3000%N w1)
    end.

(** *** [handleDragStart] *)
Definition handleDragStart (toolId : string) (w : World) : World :=
  let s := st w in
  let w0 := upd clearFeedback w in
  let ok :=
    match currentProcedure s with
    | Some p => strict_eq_undef (Some toolId) (tool p)
                && strict_eq (action p) (Some "use_tool_on_target")
    | None => false
    end in
  if ok then upd (setActiveTool (Some toolId)) w0
  else
    setTimeout ClearFeedback 3000%N
      (upd (setIsCorrectAction (Some false))
         (upd (setFeedbackMessage
                 "Please pick up the correct tool for this step.") w0)).

(** *** [handleCreateSmear] *)
Definition smearAllowed (s : State) : bool :=
  strict_eq (activeTool s) (Some "spreader_slide")
  && slideHasBlood s
  && match currentProcedure s with
     | Some p => id p =? "perform_smear"
     | None => false
     end.

Definition handleCreateSmear (w : World) : World :=
  let s := st w in
  let w0 := upd clearFeedback w in
  if smearAllowed s then
    let quality := "good" in
    setTimeout Advance 1500%N
      (upd (fun acc =>
              setActiveTool None
                (setIsCorrectAction (Some true)
                   (setFeedbackMessage
                      "Excellent! Good quality blood smear created."
                      (setScore (score s + 30)
                         (setSmearQuality (Some quality) acc))))) w0)
  else
    let atSmearStep :=
      match currentProcedure s with
      | Some p => id p =? "perform_smear"
      | None => false
      end in
    let w1 :=
      if negb atSmearStep then
        upd (setFeedbackMessage
               "It's not time to create the smear yet. Follow the steps.")
            w0
      else if negb (strict_eq (activeTool s) (Some "spreader_slide")) then
        upd (setFeedbackMessage "First, pick up the Spreader Slide.") w0
      else if negb (slideHasBlood s) then
        upd (setFeedbackMessage
               "You need to collect blood on the slide first.") w0
      else w0 in
    setTimeout ClearFeedback 3000%N (upd (setIsCorrectAction (Some false)) w1).

(** *** [handleAction] *)

(** [/\w/] on an ASCII character. *)
Definition is_word_char (c : ascii) : bool :=
  let n := nat_of_ascii c in
  (Nat.leb 48 n && Nat.leb n 57) || (Nat.leb 65 n && Nat.leb n 90)
  || (Nat.leb 97 n && Nat.leb n 122) || Nat.eqb n 95.

Definition toUpperCase (c : ascii) : ascii :=
  let n := nat_of_ascii c in
  if Nat.leb 97 n && Nat.leb n 122 then ascii_of_nat (n - 32) else c.

(** [s.replace(/\b\w/g, l => l.toUpperCase())]; [inWord] tells whether
    the previous character was a word character. *)
Fixpoint capitalize_words (inWord : bool) (s : string) : string :=
  match s with
  | EmptyString => EmptyString
  | String c r =>
      String (if negb inWord && is_word_char c then toUpperCase c else c)
             (capitalize_words (is_word_char c) r)
  end.

(** What the [switch (currentProcedure.action)] does: it falls out
    with the locals, hands over to [handleCreateSmear] and returns,
    returns at once, or throws on [null.replace]. *)
Inductive Switch :=
| Break (acc : State) (l : Locals)
| Delegated
| Return
| Throws (acc : State).

Definition is_action (p : Step) (a : string) : bool :=
  strict_eq (action p) (Some a).

(** [s] is the state the closure captured, [acc] the state under
    construction. *)
Definition actionSwitch (objectId : option string) (p : Step)
           (s acc : State) : Switch :=
  let untouched := mkLocals (score s) "" false false in
  if is_action p "pick_up_tool" then
    if strict_eq objectId (target p) then
      match objectId with
      | Some o =>
          Break (setActiveTool (Some o) acc)
                (mkLocals (score s)
                   (capitalize_words false (underscores_to_spaces o)
                    ++ " picked up.") true true)
      | None => Throws (setActiveTool None acc)
      end
    else
      match target p with
      | Some t =>
          Break acc
                (mkLocals (score s)
                   ("Incorrect. Please pick up the "
                    ++ underscores_to_spaces t ++ ".") false false)
      | None => Throws acc
      end
  else if is_action p "next_step_button" then
    if strict_eq objectId (Some "next_button") then
      Break acc (mkLocals (score s) "Proceeding to the next step." true true)
    else
      Break acc (mkLocals (score s)
                   ("Please click the " ++ dquote ++ "Next" ++ dquote
                    ++ " button.") false false)
  else if is_action p "auto_advance_blood_drop" then
    if id p =? "wait_for_second_drop" then
      Break (setBloodDropVisible true acc)
            (mkLocals (score s) "Second blood drop formed. Now collect it!"
                      true true)
    else Break acc untouched
  else if is_action p "click_create_smear" then
    if strict_eq objectId (Some "create_smear_button") then Delegated
    else Break acc untouched
  else if is_action p "view_microscope" then
    if strict_eq objectId (Some "microscope_icon") then
      Break (setShowMicroscopeView true acc)
            (mkLocals (score s) "Observing smear under microscope."
                      true false)
    else
      Break acc
            (mkLocals (score s)
               "Incorrect. Click the microscope icon to view the smear."
               false false)
  else if is_action p "mcq_handled_internally" then Return
  else
    Break acc (mkLocals (score s) "Invalid action for this step."
                        false false).

Definition handleAction (objectId : option string) (w : World) : Outcome :=
  let s := st w in
  let w0 := upd clearFeedback w in
  match currentProcedure s with
  | None => TypeError w0
  | Some p =>
      match actionSwitch objectId p s (st w0) with
      | Delegated => Returned (handleCreateSmear w0)
      | Return => Returned w0
      | Throws acc => TypeError (mkWorld acc (now w) (timers w))
      | Break acc l =>
          let w1 := mkWorld acc (now w) (timers w) in
          if proceedToNextStep l then
            Returned (setTimeout Advance 1500%N w1)
          else if negb (is_action p "click_create_smear")
                  && negb (is_action p "mcq_handled_internally")
                  && negb (is_action p "view_microscope") then
            Returned
              (setTimeout ClearFeedback 3000%N
                 (upd (fun a =>
                         setIsCorrectAction (Some (isCorrect l))
                           (setFeedbackMessage (message l)
                              (setScore (newScore l) a))) w1))
          else Returned w1
      end
  end.

(** *** [resetSimulation] *)
Definition resetSimulation (w : World) : World :=
  upd (fun s =>
         setShowMicroscopeView false
           (setSmearQuality None
              (setSlideHasBlood false
                 (setBloodDropVisible false
                    (setActiveTool None
                       (setIsCorrectAction None
                          (setFeedbackMessage ""
                             (setScore 0 (setCurrentStep 0 s))))))))) w.


(** *** Rendering and the auto-advance effect

    A callback that leaves every state cell as it was does not render
    (React bails out); one that changes a cell renders once.  The
    auto-advance effect depends on [labProcedureSteps], a fresh array at
    every render, so it runs at every render: its cleanup clears the
    timer of the previous render, and on the auto-advance step it files
    a new one, two seconds ahead.  The handlers are rebuilt at every
    render too, so the closure of a pending [AutoStep] holds the current
    state. *)
Definition isAutoStep (s : State) : bool :=
  match currentProcedure s with
  | Some p => is_action p "auto_advance_blood_drop"
  | None => false
  end.

Definition is_auto (c : Callback) : bool :=
  match c with AutoStep => true | _ => false end.

Definition clearAutoTimer (q : list (N * Callback))
  : list (N * Callback) :=
  filter (fun e => negb (is_auto (snd e))) q.

Definition autoAdvanceEffect (w : World) : World :=
  let q := clearAutoTimer (timers w) in
  mkWorld (st w) (now w)
          (if isAutoStep (st w) then schedule (now w + 2000)%N AutoStep q
           else q).

Definition render (before : State) (w : World) : World :=
  if State_eq_dec before (st w) then w else autoAdvanceEffect w.

(** *** Timer callbacks *)

(** [onQuizComplete], the callback given to the quiz component. *)
Definition onQuizComplete (isAnswerCorrect : bool) (w : World) : World :=
  let w1 :=
    if isAnswerCorrect then
      upd (fun s =>
             setIsCorrectAction (Some true)
               (setFeedbackMessage "Correct! Well done."
                  (setScore (score s + 50) s))) w
    else
      upd (fun s =>
             setIsCorrectAction (Some false)
               (setFeedbackMessage
                  "Incorrect. Try to review the video demonstration." s)) w
  in setTimeout Advance 2000%N w1.

Definition runCallback (c : Callback) (w : World) : World :=
  match c with
  | Advance =>
      upd (fun s => clearFeedback (setCurrentStep (currentStep s + 1) s)) w
  | ClearFeedback => upd clearFeedback w
  | AutoStep =>
      match currentProcedure (st w) with
      | Some p => world_of (handleAction (target p) w)
      | None => w
      end
  | QuizComplete b => onQuizComplete b w
  end.

(** The browser runs the next pending callback. *)
Definition fire (w : World) : option (Callback * World) :=
  match timers w with
  | [] => None
  | (d, c) :: q =>
      let w1 := mkWorld (st w) (N.max (now w) d) q in
      Some (c, render (st w) (runCallback c w1))
  end.

(** *** User events, as the JSX wires them *)
Inductive Event :=
| StartSimulation                (* the button of the intro screen *)
| ClickTool (toolId : string)    (* onClick of a ToolButton *)
| DragStart (toolId : string)    (* onDragStart of a ToolButton *)
| Drop (targetId : string)       (* onDrop of a TargetArea *)
| ClickCreateSmear               (* the Create Smear button *)
| ClickStepButton                (* Next Step / View Smear / Continue *)
| CloseMicroscope                (* Close View & Finish *)
| VideoNext                      (* Next of the video screen *)
| SubmitAnswer (isAnswerCorrect : bool)  (* Submit Answer of the quiz *)
| Restart.                       (* Restart Simulation *)

Definition toolButtons : list string :=
  ["alcohol_swab"; "lancet"; "clean_slide"; "spreader_slide"].

Definition targetAreas : list string :=
  ["finger"; "blood_drop"; "clean_slide_area"].

Definition mem (x : string) (l : list string) : bool :=
  existsb (String.eqb x) l.

(** [labProcedureSteps.findIndex(step => step.id === i)], with the
    length of the list standing for a miss. *)
Fixpoint findIndex (i : string) (l : list Step) : nat :=
  match l with
  | [] => 0
  | p :: r => if id p =? i then 0 else S (findIndex i r)
  end.

Definition stepIdIs (s : State) (i : string) : bool :=
  match currentProcedure s with
  | Some p => id p =? i
  | None => false
  end.

(** The lab workspace is on screen. *)
Definition workspaceVisible (s : State) : bool :=
  Nat.ltb 0 (currentStep s)
  && Nat.ltb (currentStep s) (findIndex "video_demonstration"
                                        labProcedureSteps)
  && negb (showMicroscopeView s).

Definition isPickUpTarget (s : State) (i : string) : bool :=
  match currentProcedure s with
  | Some p => is_action p "pick_up_tool" && strict_eq (target p) (Some i)
  | None => false
  end.

Definition isToolForDragTarget (s : State) (i : string) : bool :=
  match currentProcedure s with
  | Some p => is_action p "use_tool_on_target"
              && strict_eq_undef (Some i) (tool p)
  | None => false
  end.

Definition isCurrentlyActiveTarget (s : State) (i : string) : bool :=
  match currentProcedure s with
  | Some p => strict_eq (target p) (Some i)
              && strict_eq_undef (activeTool s) (tool p)
  | None => false
  end.

(** The handler of the event is attached and its element is rendered. *)
Definition enabled (s : State) (e : Event) : bool :=
  match e with
  | StartSimulation => Nat.eqb (currentStep s) 0
  | ClickTool i =>
      workspaceVisible s && mem i toolButtons && isPickUpTarget s i
  | DragStart i =>
      workspaceVisible s && mem i toolButtons && isToolForDragTarget s i
  | Drop g =>
      workspaceVisible s && mem g targetAreas && isCurrentlyActiveTarget s g
  | ClickCreateSmear =>
      workspaceVisible s && stepIdIs s "perform_smear"
      && strict_eq (activeTool s) (Some "spreader_slide")
      && slideHasBlood s
  | ClickStepButton =>
      workspaceVisible s
      && (stepIdIs s "air_dry" || stepIdIs s "microscope_observation"
          || stepIdIs s "procedure_complete")
  | CloseMicroscope => showMicroscopeView s
  | VideoNext => stepIdIs s "video_demonstration"
  | SubmitAnswer _ => stepIdIs s "mcq_challenge"
  | Restart => stepIdIs s "final_completion"
  end.

(** The quiz component keeps its own selection and shows its own
    feedback; of its [handleSubmit] only the timer that reports the
    answer to the application is kept. *)
Definition handle (e : Event) (w : World) : World :=
  match e with
  | StartSimulation => upd (setCurrentStep 1) w
  | ClickTool i => world_of (handleAction (Some i) w)
  | DragStart i => handleDragStart i w
  | Drop g => world_of (handleDrop g w)
  | ClickCreateSmear => world_of (handleAction (Some "create_smear_button") w)
  | ClickStepButton =>
      if stepIdIs (st w) "microscope_observation"
      then world_of (handleAction (Some "microscope_icon") w)
      else world_of (handleAction (Some "next_button") w)
  | CloseMicroscope =>
      upd (fun s =>
             setCurrentStep (currentStep s + 1)
               (setShowMicroscopeView false s)) w
  | VideoNext => world_of (handleAction (Some "next_button") w)
  | SubmitAnswer b => setTimeout (QuizComplete b) 2000%N w
  | Restart => resetSimulation w
  end.

(** *** The event loop

    [User t e]: the user event [e] arrives at time [t]; every callback
    due before [t] has run already.  [Fire]: the next pending callback
    runs. *)
Inductive Label :=
| User (t : N) (e : Event)
| Fire.

Definition exec (w : World) (l : Label) : option World :=
  match l with
  | User t e =>
      if N.leb (now w) t && none_due_before t (timers w)
         && enabled (st w) e
      then Some (render (st w) (handle e (mkWorld (st w) t (timers w))))
      else None
  | Fire => option_map snd (fire w)
  end.

Fixpoint run (ls : list Label) (w : World) : option World :=
  match ls with
  | [] => Some w
  | l :: r =>
      match exec w l with
      | Some w' => run r w'
      | None => None
      end
  end.

Definition reachable (w : World) : Prop :=
  exists ls, run ls initialWorld = Some w.


(** *** The interaction events as the handlers receive them *)
Inductive Interaction :=
| IDrop (targetId : string)
| IAction (objectId : option string)
| ICreateSmear
| IDragStart (toolId : string).

Definition process (i : Interaction) (w : World) : World :=
  match i with
  | IDrop g => world_of (handleDrop g w)
  | IAction o => world_of (handleAction o w)
  | ICreateSmear => handleCreateSmear w
  | IDragStart t => handleDragStart t w
  end.

(** The verdict the handler reaches on the event: the value of its
    [isCorrect], or the test of its success branch. *)
Definition satisfies (w : World) (i : Interaction) : bool :=
  let s := st w in
  match i with
  | IDrop g =>
      truthy (activeTool s)
      && match currentProcedure s with
         | Some p => isCorrect (snd (dropVerdict g p s s))
         | None => false
         end
  | IAction o =>
      match currentProcedure s with
      | Some p =>
          match actionSwitch o p s s with
          | Break _ l => isCorrect l
          | Delegated => smearAllowed s
          | Return | Throws _ => false
          end
      | None => false
      end
  | ICreateSmear => smearAllowed s
  | IDragStart t => isToolForDragTarget s t
  end.

(** The pending callbacks other than feedback clears. *)
Definition is_clear (c : Callback) : bool :=
  match c with ClearFeedback => true | _ => false end.

Definition pendingWork (q : list (N * Callback)) : list (N * Callback) :=
  filter (fun e => negb (is_clear (snd e))) q.

(** The simulation flags of a state. *)
Definition flags (s : State) : bool * bool * option string :=
  (bloodDropVisible s, slideHasBlood s, smearQuality s).

(** *** Predicates used in the statements below *)

(** The drop was turned down: incorrect feedback is shown, nothing but
    the feedback clear is filed, and step, score and flags stay. *)
Definition dropRejected (w w' : World) : Prop :=
  isCorrectAction (st w') = Some false
  /\ feedbackMessage (st w') <> ""
  /\ currentStep (st w') = currentStep (st w)
  /\ score (st w') = score (st w)
  /\ flags (st w') = flags (st w)
  /\ timers w' = schedule (now w + 3000)%N ClearFeedback (timers w).

(** What every handler guarantees: the step pointer stays, blood on
    the slide stays, and the smear quality stays or becomes good. *)
Definition framed (s s' : State) : Prop :=
  currentStep s' = currentStep s
  /\ (slideHasBlood s = true -> slideHasBlood s' = true)
  /\ (smearQuality s' = smearQuality s \/ smearQuality s' = Some "good").

(** The switch of [handleAction], case by case: the locals keep the
    score; the state under construction is kept, or gets the tool, the
    second blood drop or the microscope view; a verdict of incorrect
    keeps it and does not proceed. *)
Definition switchSpec (o : option string) (s acc : State) (r : Switch)
  : Prop :=
  match r with
  | Break a l =>
      newScore l = score s
      /\ (isCorrect l = false -> a = acc /\ proceedToNextStep l = false)
      /\ (a = acc
          \/ (exists t, o = Some t /\ a = setActiveTool (Some t) acc)
          \/ (a = setBloodDropVisible true acc
              /\ proceedToNextStep l = true)
          \/ (a = setShowMicroscopeView true acc
              /\ proceedToNextStep l = false))
  | Throws a => a = acc \/ a = setActiveTool None acc
  | Delegated | Return => True
  end.

(** A rejected event leaves flags, score and step pointer as they were
    and files nothing but a feedback clear. *)
Definition untouched (w w' : World) : Prop :=
  flags (st w') = flags (st w)
  /\ score (st w') = score (st w)
  /\ currentStep (st w') = currentStep (st w)
  /\ pendingWork (timers w') = pendingWork (timers w).


(** From one world to a later one: the step pointer has not gone back,
    blood on the slide stays, the smear quality stays or becomes good. *)
Definition progress (s s' : State) : Prop :=
  currentStep s <= currentStep s'
  /\ (slideHasBlood s = true -> slideHasBlood s' = true)
  /\ (smearQuality s' = smearQuality s \/ smearQuality s' = Some "good").

Definition is_restart (l : Label) : bool :=
  match l with
  | User _ Restart => true
  | _ => false
  end.

(** A session in which Restart Simulation is never clicked. *)
Definition no_restart (ls : list Label) : bool :=
  forallb (fun l => negb (is_restart l)) ls.

(** The smear quality is [null] or ['good']. *)
Definition nullOrGood (s : State) : Prop :=
  smearQuality s = None \/ smearQuality s = Some "good".


Definition only_clears (q : list (N * Callback)) : Prop :=
  Forall (fun e => snd e = ClearFeedback) q.

(** The place of the auto-advance step in the catalog, and of the step
    its [nextStep] names. *)
Definition waitStepIndex : nat :=
  findIndex "wait_for_second_drop" labProcedureSteps.


(** The held tool, if any, has a name: [activeTool] is not the empty
    string. *)
Definition toolNamed (s : State) : Prop := activeTool s <> Some "".

(** *** Sessions used in the examples below *)

(** The procedure done as instructed, up to the video screen. *)
Definition toVideoScreen : list Label :=
  [ User 0 StartSimulation;
    User 100 (ClickTool "alcohol_swab"); Fire;
    User 2000 (DragStart "alcohol_swab"); User 2100 (Drop "finger"); Fire;
    User 4000 (ClickTool "lancet"); Fire;
    User 6000 (DragStart "lancet"); User 6100 (Drop "finger"); Fire;
    User 8000 (ClickTool "alcohol_swab"); Fire;
    User 10000 (DragStart "alcohol_swab"); User 10100 (Drop "blood_drop");
    Fire;
    Fire; Fire;
    User 16000 (ClickTool "clean_slide"); Fire;
    User 18000 (DragStart "clean_slide"); User 18100 (Drop "blood_drop");
    Fire;
    User 20000 (ClickTool "spreader_slide"); Fire;
    User 22000 ClickCreateSmear; Fire;
    User 24000 ClickStepButton; Fire;
    User 30000 ClickStepButton; User 31000 CloseMicroscope;
    User 32000 ClickStepButton; Fire ]%N.

(** The whole module: video watched, quiz answered correctly. *)
Definition wholeModule : list Label :=
  toVideoScreen
  ++ [ User 40000 VideoNext; Fire;
       User 50000 (SubmitAnswer true); Fire; Fire ]%N.

(** Next is clicked three times on the video screen, at 0, 0.1 and
    1.4 s; the first two delayed advances lead past the quiz to the
    completion screen, where the learner restarts while the third is
    still pending. *)
Definition tripleNextThenRestart : list Label :=
  toVideoScreen
  ++ [ User 40000 VideoNext; User 40100 VideoNext; User 41400 VideoNext;
       Fire; Fire;
       User 42000 Restart ]%N.

(** The procedure done as instructed until the swab is picked up for the
    wipe: the first blood drop shows. *)
Definition dropPricked : list Label :=
  [ User 0 StartSimulation;
    User 100 (ClickTool "alcohol_swab"); Fire;
    User 2000 (DragStart "alcohol_swab"); User 2100 (Drop "finger"); Fire;
    User 4000 (ClickTool "lancet"); Fire;
    User 6000 (DragStart "lancet"); User 6100 (Drop "finger"); Fire;
    User 8000 (ClickTool "alcohol_swab"); Fire ]%N.

(** The drop is then wiped away. *)
Definition dropWiped : list Label :=
  [ User 10000 (DragStart "alcohol_swab"); User 10100 (Drop "blood_drop") ]%N.

(** The swab is clicked twice at [wipe_first_drop], at 8.0 s and
    9.4 s, and the drop is wiped at 10.0 s; the first two delayed
    advances have run, the third is pending. *)
Definition swabClickedTwice : list Label :=
  firstn 12 dropPricked
  ++ [ User 9400 (ClickTool "alcohol_swab"); Fire;
       User 9900 (DragStart "alcohol_swab"); User 10000 (Drop "blood_drop");
       Fire ]%N.

(** The finger is cleaned: the drop of the swab on the finger has just
    been handled. *)
Definition fingerCleaned : list Label :=
  [ User 0 StartSimulation;
    User 100 (ClickTool "alcohol_swab"); Fire;
    User 2000 (DragStart "alcohol_swab"); User 2100 (Drop "finger") ]%N.

End BloodSmear.

(** * The 3-D safety and equipment-handling simulation (src/App.js) *)

Module SafetyLab.

(** The [simState] object.  [dragging] is [null] or the name of the
    dragged object; [dragOffset] and [selectedObj] are never written
    after the start and are not kept. *)
Record SimState := mkSim {
  wearingLabCoat : bool;
  wearingGoggles : bool;
  balanceCalibrated : bool;
  cylinderPicked : bool;
  cylinderFilled : bool;
  cylinderAtBench : bool;
  cylinderWeighed : bool;
  wasteDisposed : bool;
  dragging : option string
}.

Definition initialSimState : SimState :=
  mkSim false false false false false false false false None.

(** The spread updates [{ ...s, field: value }]. *)
Definition withWearingLabCoat (b : bool) (s : SimState) : SimState :=
  mkSim b (wearingGoggles s) (balanceCalibrated s) (cylinderPicked s)
        (cylinderFilled s) (cylinderAtBench s) (cylinderWeighed s)
        (wasteDisposed s) (dragging s).
Definition withWearingGoggles (b : bool) (s : SimState) : SimState :=
  mkSim (wearingLabCoat s) b (balanceCalibrated s) (cylinderPicked s)
        (cylinderFilled s) (cylinderAtBench s) (cylinderWeighed s)
        (wasteDisposed s) (dragging s).
Definition withBalanceCalibrated (b : bool) (s : SimState) : SimState :=
  mkSim (wearingLabCoat s) (wearingGoggles s) b (cylinderPicked s)
        (cylinderFilled s) (cylinderAtBench s) (cylinderWeighed s)
        (wasteDisposed s) (dragging s).
Definition withCylinderFilled (b : bool) (s : SimState) : SimState :=
  mkSim (wearingLabCoat s) (wearingGoggles s) (balanceCalibrated s)
        (cylinderPicked s) b (cylinderAtBench s) (cylinderWeighed s)
        (wasteDisposed s) (dragging s).
Definition withCylinderAtBench (b : bool) (s : SimState) : SimState :=
  mkSim (wearingLabCoat s) (wearingGoggles s) (balanceCalibrated s)
        (cylinderPicked s) (cylinderFilled s) b (cylinderWeighed s)
        (wasteDisposed s) (dragging s).
Definition withCylinderWeighed (b : bool) (s : SimState) : SimState :=
  mkSim (wearingLabCoat s) (wearingGoggles s) (balanceCalibrated s)
        (cylinderPicked s) (cylinderFilled s) (cylinderAtBench s) b
        (wasteDisposed s) (dragging s).
Definition withWasteDisposed (b : bool) (s : SimState) : SimState :=
  mkSim (wearingLabCoat s) (wearingGoggles s) (balanceCalibrated s)
        (cylinderPicked s) (cylinderFilled s) (cylinderAtBench s)
        (cylinderWeighed s) b (dragging s).
Definition withDragging (d : option string) (s : SimState) : SimState :=
  mkSim (wearingLabCoat s) (wearingGoggles s) (balanceCalibrated s)
        (cylinderPicked s) (cylinderFilled s) (cylinderAtBench s)
        (cylinderWeighed s) (wasteDisposed s) d.

(** One entry of [PROCEDURE]; the instruction text is display only. *)
Record ProcedureStep := mkProc {
  id : nat;
  title : string;
  validate : SimState -> bool;
  error : string
}.

Definition PROCEDURE : list ProcedureStep :=
  [ mkProc 0 "Wear Lab Coat and Safety Goggles"
           (fun state => wearingLabCoat state && wearingGoggles state)
           "You must wear your lab coat and goggles first.";
    mkProc 1 "Calibrate Analytical Balance"
           (fun state => balanceCalibrated state)
           "Calibrate the analytical balance first by clicking it.";
    mkProc 2 "Measure 50ml of Water"
           (fun state => cylinderFilled state && cylinderAtBench state)
           "You must use the graduated cylinder to measure water, fill it at the sink, and place it on the bench.";
    mkProc 3 "Weigh the Filled Cylinder"
           (fun state => cylinderWeighed state)
           "Weigh the filled graduated cylinder on the analytical balance.";
    mkProc 4 "Dispose of Waste Properly"
           (fun state => wasteDisposed state)
           "Dispose of chemical waste before completing the procedure." ].

Record State := mkState {
  simState : SimState;
  currentStep : nat;
  feedback : string;
  showModal : bool
}.

Definition initialState : State := mkState initialSimState 0 "" false.

Definition setSimState (f : SimState -> SimState) (s : State) : State :=
  mkState (f (simState s)) (currentStep s) (feedback s) (showModal s).
Definition setCurrentStep (n : nat) (s : State) : State :=
  mkState (simState s) n (feedback s) (showModal s).
Definition setFeedback (m : string) (s : State) : State :=
  mkState (simState s) (currentStep s) m (showModal s).
Definition setShowModal (b : bool) (s : State) : State :=
  mkState (simState s) (currentStep s) (feedback s) b.

(** The callback of the step-progression effect; its closure holds the
    [currentStep] of the render that filed it. *)
Inductive Callback :=
| Progress (capturedStep : nat).

Record World := mkWorld {
  st : State;
  now : N;
  timers : list (N * Callback)
}.

Definition initialWorld : World := mkWorld initialState 0 [].

Definition setTimeout (c : Callback) (ms : N) (w : World) : World :=
  mkWorld (st w) (now w) (schedule (now w + ms)%N c (timers w)).

(** What a handler hands back: the new state, and whether it called
    [setSimState] (every call builds a fresh object, so the effects that
    depend on [simState] run after the render). *)
Record Handled := mkHandled {
  result : State;
  simStateReplaced : bool
}.

Definition unchanged (s : State) : Handled := mkHandled s false.
Definition replaced (s : State) : Handled := mkHandled s true.

(** *** The handlers of the lab coat and goggles buttons *)
Definition handleWearLabCoat (s : State) : Handled :=
  if negb (wearingLabCoat (simState s)) then
    replaced (setFeedback "Lab coat worn."
                (setSimState (withWearingLabCoat true) s))
  else unchanged s.

Definition handleWearGoggles (s : State) : Handled :=
  if negb (wearingGoggles (simState s)) then
    replaced (setFeedback "Safety goggles worn."
                (setSimState (withWearingGoggles true) s))
  else unchanged s.

(** *** The pointer handlers

    Ray casting and distances are computed on the scene; the handlers
    receive their outcome: the name of the object hit, and for a
    release the four proximity tests. *)
Definition onPointerDown (picked : option string) (s : State) : Handled :=
  if truthy (dragging (simState s)) then unchanged s
  else
    match picked with
    | Some name =>
        if ((name =? "cylinder")
            && (Nat.eqb (currentStep s) 2 || Nat.eqb (currentStep s) 3))
           || ((name =? "pipette") && Nat.eqb (currentStep s) 2)
        then replaced (setSimState (withDragging (Some name)) s)
        else unchanged s
    | None => unchanged s
    end.

Record Release := mkRelease {
  nearSink : bool;     (* distToSink < 0.55 *)
  onBench : bool;      (* benchDist *)
  nearBalance : bool;  (* distToBalance < 0.38 *)
  nearBin : bool       (* distToBin < 0.33 *)
}.

(** The keys of [threeRefs.current.objects]. *)
Definition objects : list string :=
  ["bench_main"; "bench_side"; "sink"; "balance"; "cylinder"; "beaker";
   "pipette"; "wastebin"].

Definition when (c : bool) (f : State -> State) (s : State) : State :=
  if c then f s else s.

(** The guards read the [simState] of the closure, [s]; the updates
    pile up in the order they are queued. *)
Definition onPointerUp (r : Release) (s : State) : Handled :=
  let sim := simState s in
  match dragging sim with
  | None => unchanged s
  | Some name =>
      if name =? "" then unchanged s
      else if negb (existsb (String.eqb name) objects) then
        replaced (setSimState (withDragging None) s)
      else
        let a :=
          if name =? "cylinder" then
            let a1 :=
              when (nearSink r && negb (cylinderFilled sim))
                   (fun a => setFeedback "Cylinder filled with 50ml of water!"
                               (setSimState (withCylinderFilled true) a)) s in
            let a2 :=
              when (cylinderFilled sim && onBench r)
                   (fun a => setFeedback "Cylinder placed on the bench."
                               (setSimState (withCylinderAtBench true) a)) a1 in
            let a3 :=
              when (cylinderFilled sim && nearBalance r)
                   (fun a => setFeedback "Cylinder weighed! Display: 53.4g"
                               (setSimState (withCylinderWeighed true) a)) a2 in
            when (nearBin r && cylinderFilled sim)
                 (fun a => setFeedback "Waste properly disposed!"
                             (setSimState
                                (fun x =>
                                   withCylinderWeighed false
                                     (withCylinderAtBench false
                                        (withCylinderFilled false
                                           (withWasteDisposed true x)))) a))
                 a3
          else s in
        let b :=
          when (name =? "pipette")
               (setFeedback
                  "Pipette interaction is not required in this step.") a in
        replaced (setSimState (withDragging None) b)
  end.

Definition onBalanceClick (hit : bool) (s : State) : Handled :=
  if hit then
    if Nat.eqb (currentStep s) 1 && negb (balanceCalibrated (simState s))
    then replaced (setFeedback "Balance calibrated (zeroed)!"
                     (setSimState (withBalanceCalibrated true) s))
    else if cylinderFilled (simState s) && Nat.eqb (currentStep s) 3
    then replaced (setFeedback "Cylinder weighed! Display: 53.4g"
                     (setSimState (withCylinderWeighed true) s))
    else unchanged s
  else unchanged s.

(** *** The step-progression effect, run when [simState] is replaced *)
Definition stepProgressionEffect (w : World) : World :=
  match nth_error PROCEDURE (currentStep (st w)) with
  | Some curStep =>
      if validate curStep (simState (st w))
      then setTimeout (Progress (currentStep (st w))) 850%N w
      else w
  | None => w
  end.

Definition runCallback (c : Callback) (s : State) : State :=
  match c with
  | Progress capturedStep =>
      if Nat.ltb capturedStep (List.length PROCEDURE - 1) then
        setFeedback "" (setCurrentStep (currentStep s + 1) s)
      else
        setShowModal true
          (setFeedback
             "Congratulations! You have completed all safety & handling steps."
             s)
  end.

(** *** The event loop *)
Inductive Event :=
| WearLabCoat
| WearGoggles
| PointerDown (picked : option string)
| PointerUp (r : Release)
| BalanceClick (hit : bool)
| CloseModal.

Definition enabled (s : State) (e : Event) : bool :=
  match e with
  | WearLabCoat => negb (wearingLabCoat (simState s))   (* disabled= *)
  | WearGoggles => negb (wearingGoggles (simState s))
  | CloseModal => showModal s
  | _ => true
  end.

Definition handle (e : Event) (s : State) : Handled :=
  match e with
  | WearLabCoat => handleWearLabCoat s
  | WearGoggles => handleWearGoggles s
  | PointerDown picked => onPointerDown picked s
  | PointerUp r => onPointerUp r s
  | BalanceClick hit => onBalanceClick hit s
  | CloseModal => unchanged (setShowModal false s)
  end.

(** The render reads [PROCEDURE[currentStep].title]: past the last step
    it throws and React unmounts the component, listeners and all. *)
Definition mounted (s : State) : bool :=
  Nat.ltb (currentStep s) (List.length PROCEDURE).

Inductive Label :=
| User (t : N) (e : Event)
| Fire.

Definition exec (w : World) (l : Label) : option World :=
  if negb (mounted (st w)) then None
  else
    match l with
    | User t e =>
        if N.leb (now w) t && none_due_before t (timers w)
           && enabled (st w) e
        then
          let h := handle e (st w) in
          let w1 := mkWorld (result h) t (timers w) in
          Some (if simStateReplaced h then stepProgressionEffect w1 else w1)
        else None
    | Fire =>
        match timers w with
        | [] => None
        | (d, c) :: q =>
            Some (mkWorld (runCallback c (st w)) (N.max (now w) d) q)
        end
    end.

Fixpoint run (ls : list Label) (w : World) : option World :=
  match ls with
  | [] => Some w
  | l :: r =>
      match exec w l with
      | Some w' => run r w'
      | None => None
      end
  end.

(** *** Sessions used in the examples below *)

Definition atSink : Release := mkRelease true false false false.
Definition atBench : Release := mkRelease false true false false.
Definition atBin : Release := mkRelease false false false true.

(** Coat and goggles on, balance calibrated, cylinder filled at the
    sink. *)
Definition cylinderFilledAtStepTwo : list Label :=
  [ User 0 WearLabCoat; User 10 WearGoggles; Fire;
    User 1000 (BalanceClick true); Fire;
    User 2000 (PointerDown (Some "cylinder")); User 2100 (PointerUp atSink)
  ]%N.

(** The cylinder is then put on the bench and grabbed again a tenth of a
    second later, before the step has moved on; both pending callbacks
    run. *)
Definition regrabbedCylinder : list Label :=
  cylinderFilledAtStepTwo
  ++ [ User 2200 (PointerDown (Some "cylinder")); User 2300 (PointerUp atBench);
       User 2400 (PointerDown (Some "cylinder"));
       Fire; Fire ]%N.

(** The filled cylinder is carried to the waste bin instead. *)
Definition carriedToBin : list Label :=
  [ User 2200 (PointerDown (Some "cylinder")); User 2300 (PointerUp atBin)
  ]%N.

(** One of the three cylinder flags goes from set to cleared. *)
Definition cylinderFlagCleared (a b : SimState) : Prop :=
  (cylinderFilled a = true /\ cylinderFilled b = false)
  \/ (cylinderAtBench a = true /\ cylinderAtBench b = false)
  \/ (cylinderWeighed a = true /\ cylinderWeighed b = false).

(** The worlds a session goes through, the first one included; the list
    stops where the session cannot go on. *)
Fixpoint trajectory (ls : list Label) (w : World) : list World :=
  w :: match ls with
       | [] => []
       | l :: r =>
           match exec w l with
           | Some w' => trajectory r w'
           | None => []
           end
       end.

(** The flags no handler ever clears. *)
Definition keptFlags (a b : SimState) : Prop :=
  (wearingLabCoat a = true -> wearingLabCoat b = true)
  /\ (wearingGoggles a = true -> wearingGoggles b = true)
  /\ (balanceCalibrated a = true -> balanceCalibrated b = true)
  /\ (wasteDisposed a = true -> wasteDisposed b = true).

End SafetyLab.

(** * The blood-smear simulation: quiz, wiring of the screen, counters *)

Module SmearView.

Import BloodSmear.

(** ** The quiz component ([MCQChallenge])

    Its three [useState] cells, the props the application passes, and
    [handleSubmit].  The option buttons and the submit button are
    disabled once an answer is in ([localIsCorrect !== null]). *)
Record QuizState := mkQuiz {
  selectedOption : option string;
  localFeedback : string;
  localIsCorrect : option bool
}.

Definition initialQuiz : QuizState := mkQuiz None "" None.

Definition options : list string :=
  [ "To reduce pain for the patient.";
    "To remove tissue fluid contamination.";
    "To ensure the blood drop is larger.";
    "To sterilize the finger further." ].

Definition correctAnswer : string := "To remove tissue fluid contamination.".

Definition buttonsDisabled (q : QuizState) : bool :=
  match localIsCorrect q with
  | None => false
  | Some _ => true
  end.

(** [onClick={() => setSelectedOption(option)}] *)
Definition selectOption (o : string) (q : QuizState) : QuizState :=
  if buttonsDisabled q then q
  else mkQuiz (Some o) (localFeedback q) (localIsCorrect q).

(** [handleSubmit]: the new cells, and the answer the 2 s timer will
    report to [onQuizComplete], if one is filed. *)
Definition handleSubmit (q : QuizState) : QuizState * option bool :=
  match selectedOption q with
  | None =>
      (mkQuiz (selectedOption q) "Please select an answer." None, None)
  | Some o =>
      let isCorrectAnswer := o =? correctAnswer in
      (mkQuiz (selectedOption q)
              (if isCorrectAnswer then "Correct! Well done."
               else "Incorrect. The correct answer was: " ++ correctAnswer)
              (Some isCorrectAnswer),
       Some isCorrectAnswer)
  end.

(** The click on Submit Answer, in the world of the application. *)
Definition submit (q : QuizState) (w : World) : QuizState * World :=
  if buttonsDisabled q then (q, w)
  else
    match handleSubmit q with
    | (q', Some b) => (q', handle (SubmitAnswer b) w)
    | (q', None) => (q', w)
    end.

Definition quizStepIndex : nat :=
  findIndex "mcq_challenge" labProcedureSteps.

(** What the handlers rely on in [labProcedureSteps]: a pick-up step
    names its tool; only the four drop steps carry a [tool], and their
    action is [use_tool_on_target]; the steps the buttons belong to have
    the action the buttons send. *)
Definition wellFormedStep (p : Step) : Prop :=
  (is_action p "pick_up_tool" = true -> target p <> None)
  /\ (tool p <> None ->
      is_action p "use_tool_on_target" = true
      /\ ((id p =? "clean_finger") || (id p =? "apply_lancet")
          || (id p =? "wipe_blood") || (id p =? "collect_blood_on_slide")
          = true))
  /\ ((id p =? "perform_smear") = true ->
      is_action p "click_create_smear" = true)
  /\ ((id p =? "air_dry") || (id p =? "procedure_complete")
      || (id p =? "video_demonstration") = true ->
      is_action p "next_step_button" = true)
  /\ ((id p =? "microscope_observation") = true ->
      is_action p "view_microscope" = true).

(** ** From the events of the screen to the calls of the handlers *)
Definition interactionOf (s : State) (e : Event) : option Interaction :=
  match e with
  | ClickTool i => Some (IAction (Some i))
  | DragStart i => Some (IDragStart i)
  | Drop g => Some (IDrop g)
  | ClickCreateSmear => Some (IAction (Some "create_smear_button"))
  | ClickStepButton =>
      Some (IAction (Some (if stepIdIs s "microscope_observation"
                           then "microscope_icon" else "next_button")))
  | VideoNext => Some (IAction (Some "next_button"))
  | StartSimulation | CloseMicroscope | SubmitAnswer _ | Restart => None
  end.

(** No element with a handler is on screen. *)
Definition nothingToClick (s : State) : Prop :=
  forall e, enabled s e = false.

(** ** Counters on the timer queue *)

(** The pending auto-advance callbacks. *)
Definition autoPending (q : list (N * Callback)) : nat :=
  List.length (filter (fun e => is_auto (snd e)) q).

(** The callbacks that clear the feedback when they run. *)
Definition clearsFeedback (c : Callback) : bool :=
  match c with
  | Advance | ClearFeedback => true
  | AutoStep | QuizComplete _ => false
  end.

Definition clearPending (q : list (N * Callback)) : bool :=
  existsb (fun e => clearsFeedback (snd e)) q.

Definition is_advance (c : Callback) : bool :=
  match c with Advance => true | _ => false end.

Definition advancePending (q : list (N * Callback)) : bool :=
  existsb (fun e => is_advance (snd e)) q.

(** What a handler leaves behind: no feedback and the queue as it was,
    or one more callback, one that clears the feedback. *)
Definition tidy (w w' : World) : Prop :=
  (feedbackMessage (st w') = "" /\ timers w' = timers w)
  \/ exists d c, clearsFeedback c = true
                 /\ timers w' = schedule d c (timers w).

(** At most one auto-advance callback is pending, and only on the
    waiting step; on the waiting step it or a delayed advance is
    pending. *)
Definition autoTimerOK (s : State) (q : list (N * Callback)) : Prop :=
  autoPending q <= 1
  /\ (autoPending q = 1 -> isAutoStep s = true)
  /\ (isAutoStep s = true -> autoPending q = 1 \/ advancePending q = true).

(** A message on screen has a callback pending that will clear it. *)
Definition feedbackWillClear (s : State) (q : list (N * Callback)) : Prop :=
  feedbackMessage s = "" \/ clearPending q = true.

(** The points a single transition can add to the score. *)
Definition rewards : list nat := [0; 10; 20; 30; 50].

(** ** Sessions *)

(** The clean slide is clicked twice at [collect_second_drop]: the two
    delayed advances skip [collect_blood_on_slide]; the spreader slide is
    then picked up. *)
Definition slideClickedTwice : list Label :=
  firstn 18 toVideoScreen
  ++ [ User 16000 (ClickTool "clean_slide");
       User 16100 (ClickTool "clean_slide"); Fire; Fire;
       User 20000 (ClickTool "spreader_slide"); Fire ]%N.

(** Next is clicked three times on the video screen and the learner
    waits. *)
Definition tripleNext : list Label :=
  toVideoScreen
  ++ [ User 40000 VideoNext; User 40100 VideoNext; User 41400 VideoNext;
       Fire; Fire; Fire ]%N.

(** After the swab was clicked twice the waiting step is cut short and
    no second drop shows; the clean slide is picked up and dragged
    all the same. *)
Definition slideWithoutDrop : list Label :=
  swabClickedTwice
  ++ [ Fire; User 13000 (ClickTool "clean_slide"); Fire;
       User 15000 (DragStart "clean_slide") ]%N.

End SmearView.

(** * The safety simulation: banner, reachable worlds, sessions *)

Module LabView.

Import SafetyLab.

Definition reachable (w : World) : Prop :=
  exists ls, run ls initialWorld = Some w.

(** [String.prototype.includes] *)
Fixpoint includes (needle hay : string) : bool :=
  prefix needle hay
  || match hay with
     | EmptyString => false
     | String _ rest => includes needle rest
     end.

(** The feedback banner of the control panel: hidden while the message
    is empty, red when the message includes the word Incorrect, green
    otherwise. *)
Inductive Banner := Hidden | Red | Green.

Definition feedbackBanner (s : State) : Banner :=
  if feedback s =? "" then Hidden
  else if includes "Incorrect" (feedback s) then Red
  else Green.

(** The messages the handlers and the progress callback set. *)
Definition messages : list string :=
  [ "";
    "Lab coat worn.";
    "Safety goggles worn.";
    "Cylinder filled with 50ml of water!";
    "Cylinder placed on the bench.";
    "Cylinder weighed! Display: 53.4g";
    "Waste properly disposed!";
    "Pipette interaction is not required in this step.";
    "Balance calibrated (zeroed)!";
    "Congratulations! You have completed all safety & handling steps." ].

Definition lastStepIndex : nat := List.length PROCEDURE - 1.

Definition dressed (x : SimState) : Prop :=
  wearingLabCoat x = true /\ wearingGoggles x = true.

(** A pending progress callback was filed at a step not after the
    current one, and one filed at the last step was filed with the waste
    disposed. *)
Definition pendingOK (s : State) (e : N * Callback) : Prop :=
  match snd e with
  | Progress c =>
      c <= currentStep s
      /\ (lastStepIndex <= c -> wasteDisposed (simState s) = true)
  end.

(** What holds in every world of the event loop: the modal shows only
    at or after the last step, with the waste disposed; at the first two
    steps nothing is dragged and at most the callback of the step is
    pending, filed with the step valid; from the third step on coat and
    goggles are worn and the balance is calibrated. *)
Definition invariant (w : World) : Prop :=
  let s := st w in
  (showModal s = true ->
   lastStepIndex <= currentStep s /\ wasteDisposed (simState s) = true)
  /\ match currentStep s with
     | 0 =>
         dragging (simState s) = None
         /\ (timers w = []
             \/ (dressed (simState s)
                 /\ exists d, timers w = [(d, Progress 0)]))
     | 1 =>
         dragging (simState s) = None
         /\ dressed (simState s)
         /\ (timers w = []
             \/ (balanceCalibrated (simState s) = true
                 /\ exists d, timers w = [(d, Progress 1)]))
     | _ =>
         dressed (simState s)
         /\ balanceCalibrated (simState s) = true
         /\ Forall (pendingOK s) (timers w)
     end.

(** ** Sessions *)

Definition atBalance : Release := mkRelease false false true false.

(** The procedure as the instructions give it: coat and goggles, the
    balance calibrated, the cylinder filled at the sink and put on the
    bench, then carried to the balance; each step is left to move on
    before the next action. *)
Definition asInstructed : list Label :=
  cylinderFilledAtStepTwo
  ++ [ User 2200 (PointerDown (Some "cylinder")); User 2300 (PointerUp atBench);
       Fire;
       User 4000 (PointerDown (Some "cylinder"));
       User 4100 (PointerUp atBalance);
       Fire ]%N.

(** The cylinder, grabbed again at step 2 while two callbacks are
    pending, is held until both have run and released at the bin. *)
Definition heldAcrossSteps : list Label :=
  regrabbedCylinder ++ [ User 3300 (PointerUp atBin); Fire ]%N.

End LabView.

(** * Facts about the timer queue *)

Section TimerQueueFacts.

Context {A : Type}.




End TimerQueueFacts.

(** * Facts about the blood-smear simulation *)

Section BloodSmearFacts.

Import BloodSmear.

(** ** Rendering and timers leave the state cells alone *)

Lemma st_render (before : State) (w : World) :
  st (render before w) = st w.
Proof. unfold render. now destruct (State_eq_dec before (st w)). Qed.


Lemma render_same (before : State) (w : World) :
  before = st w -> render before w = w.
Proof.
  intros ->. unfold render. now destruct (State_eq_dec (st w) (st w)).
Qed.

(** ** A drop without the matching tool *)

Lemma drop_without_tool (w : World) (g : string) :
  truthy (activeTool (st w)) = false ->
  exists w', handleDrop g w = Returned w' /\ dropRejected w w'.
Proof.
  intros H. unfold handleDrop. rewrite H. simpl.
  eexists. split; [reflexivity|].
  unfold dropRejected; simpl. repeat split. discriminate.
Qed.

Lemma drop_with_other_tool (w : World) (g : string) (p : Step) :
  currentProcedure (st w) = Some p ->
  truthy (activeTool (st w)) = true ->
  strict_eq_undef (activeTool (st w)) (tool p) = false ->
  exists w', handleDrop g w = Returned w' /\ dropRejected w w'.
Proof.
  intros Hp Ht Hm. unfold handleDrop. rewrite Ht, Hp. simpl.
  unfold dropVerdict. rewrite Hm, andb_false_r. simpl.
  eexists. split; [reflexivity|].
  unfold dropRejected; simpl. repeat split. discriminate.
Qed.

Lemma strict_eq_undef_true (a b : option string) :
  strict_eq_undef a b = true -> a = b.
Proof.
  destruct a, b; simpl; try discriminate.
  intros H. apply String.eqb_eq in H. now subst.
Qed.

(** C1.  At a step whose action is [use_tool_on_target], a drop (on the
    step's target or on any other) handled while [activeTool] is [null],
    or is not the tool of the step, is rejected: the handler returns with
    incorrect feedback, files only the feedback clear (no delayed
    advance), and leaves step, score and flags as they were. *)
Theorem drop_rejected_without_matching_tool
        (w : World) (g : string) (p : Step) :
  currentProcedure (st w) = Some p ->
  is_action p "use_tool_on_target" = true ->
  activeTool (st w) = None \/ activeTool (st w) <> tool p ->
  exists w', handleDrop g w = Returned w' /\ dropRejected w w'.
Proof.
  intros Hp _ Hm.
  destruct (truthy (activeTool (st w))) eqn:Ht.
  - apply drop_with_other_tool with p; trivial.
    destruct (strict_eq_undef (activeTool (st w)) (tool p)) eqn:E; trivial.
    apply strict_eq_undef_true in E.
    destruct Hm as [Hn|Hn]; [rewrite Hn in Ht; discriminate | contradiction].
  - now apply drop_without_tool.
Qed.

Lemma drop_rejected_without_matching_tool_witness :
  let w := mkWorld (mkState 2 0 "" None (Some "lancet") false false None
                            false) 5000 [] in
  exists w', handleDrop "finger" w = Returned w' /\ dropRejected w w'.
Proof.
  intro w.
  apply (drop_rejected_without_matching_tool w "finger"
           (mkStep "clean_finger" (Some "use_tool_on_target")
                   (Some "alcohol_swab") (Some "finger")
                   (Some "prick_finger"))).
  - reflexivity.
  - reflexivity.
  - right. discriminate.
Defined.

(** ** What the handlers leave alone *)

Ltac cases :=
  repeat match goal with
         | |- context [if ?c then _ else _] => destruct c eqn:?
         | |- context [match ?x with Some _ => _ | None => _ end] =>
             destruct x eqn:?
         | |- context [let '(_, _) := ?x in _] => destruct x eqn:?
         end.

Ltac handler :=
  unfold process, handleDrop, handleAction, handleCreateSmear,
    handleDragStart, actionSwitch, dropVerdict, dropSwitch,
    handleCreateSmear, resetSimulation, onQuizComplete;
  cases; simpl; try reflexivity; auto.

Lemma framed_refl (s : State) : framed s s.
Proof. unfold framed; auto. Qed.

Ltac frame := handler; unfold framed; simpl; auto.

Lemma handleCreateSmear_framed (w : World) :
  framed (st w) (st (handleCreateSmear w)).
Proof. frame. Qed.

Lemma handleDragStart_framed (t : string) (w : World) :
  framed (st w) (st (handleDragStart t w)).
Proof. frame. Qed.

Lemma handleDrop_framed (g : string) (w : World) :
  framed (st w) (st (world_of (handleDrop g w))).
Proof. frame. Qed.

Lemma actionSwitch_spec (o : option string) (p : Step) (s acc : State) :
  switchSpec o s acc (actionSwitch o p s acc).
Proof.
  unfold actionSwitch.
  repeat match goal with
         | |- context [if ?c then _ else _] => destruct c
         | |- context [match ?x with Some _ => _ | None => _ end] =>
             destruct x
         end;
    cbn [switchSpec newScore isCorrect proceedToNextStep];
    repeat split; try discriminate; eauto 6.
Qed.

Lemma handleAction_framed (o : option string) (w : World) :
  framed (st w) (st (world_of (handleAction o w))).
Proof.
  unfold handleAction.
  destruct (currentProcedure (st w)) as [p|];
    [|unfold framed; simpl; auto].
  pose proof (actionSwitch_spec o p (st w) (st (upd clearFeedback w))) as S.
  destruct (actionSwitch o p (st w) (st (upd clearFeedback w)))
    as [a l| | |a]; cbn [switchSpec] in S.
  - destruct S as (_ & _ & [->|[(t & _ & ->)|[(-> & _)|(-> & _)]]]);
      cases; unfold framed; simpl; auto.
  - apply (handleCreateSmear_framed (upd clearFeedback w)).
  - unfold framed; simpl; auto.
  - destruct S as [->| ->]; unfold framed; simpl; auto.
Qed.

(** ** Rejection *)




(** The verdict on a drop, case by case. *)
Lemma dropVerdict_spec (g : string) (p : Step) (s acc : State) :
  let r := dropVerdict g p s acc in
  (isCorrect (snd r) = false ->
   fst r = acc /\ proceedToNextStep (snd r) = false
   /\ newScore (snd r) = score s)
  /\ (isCorrect (snd r) = true ->
      proceedToNextStep (snd r) = true /\ score s < newScore (snd r)
      /\ currentStep (fst r) = currentStep acc).
Proof.
  unfold dropVerdict, dropSwitch.
  repeat match goal with
         | |- context [if ?c then _ else _] => destruct c
         end;
    cbn [fst snd isCorrect proceedToNextStep newScore];
    split; intros; try discriminate; repeat split; try lia.
Qed.

Lemma dropVerdict_locals (g : string) (p : Step) (s a b : State) :
  snd (dropVerdict g p s a) = snd (dropVerdict g p s b).
Proof.
  unfold dropVerdict, dropSwitch.
  repeat match goal with
         | |- context [if ?c then _ else _] => destruct c
         end; reflexivity.
Qed.


Lemma smearAllowed_ext (s s' : State) :
  activeTool s' = activeTool s ->
  slideHasBlood s' = slideHasBlood s ->
  currentStep s' = currentStep s ->
  smearAllowed s' = smearAllowed s.
Proof.
  unfold smearAllowed, currentProcedure. now intros -> -> ->.
Qed.









(** The verdict is not always incorrect: the swab dropped on the finger
    at [clean_finger] satisfies the step. *)
Example satisfies_clean_finger :
  satisfies (mkWorld (mkState 2 0 "" None (Some "alcohol_swab") false false
                              None false) 5000 [])
            (IDrop "finger") = true.
Proof. reflexivity. Qed.

(** ** The active tool after a drop *)

(** [setActiveTool(null)] stands after the switch of [handleDrop]: with a
    tool held and the step inside the catalog, a drop leaves no tool
    held, whatever the verdict. *)
Lemma handleDrop_clears_activeTool (g : string) (w : World) (p : Step) :
  truthy (activeTool (st w)) = true ->
  currentProcedure (st w) = Some p ->
  activeTool (st (world_of (handleDrop g w))) = None.
Proof.
  intros Ht Hp. unfold handleDrop. rewrite Ht, Hp. cbn [negb].
  destruct (dropVerdict g p (st w) (st (upd clearFeedback w))) as [acc l].
  now destruct (proceedToNextStep l).
Qed.

(** ** Progress of the event loop *)

Lemma framed_progress (s s' : State) : framed s s' -> progress s s'.
Proof. unfold framed, progress. intros (-> & A & B). auto. Qed.

Lemma progress_refl (s : State) : progress s s.
Proof. unfold progress. auto. Qed.

Lemma progress_trans (a b c : State) :
  progress a b -> progress b c -> progress a c.
Proof.
  unfold progress. intros (A1 & A2 & A3) (B1 & B2 & B3).
  repeat split; [lia | auto |].
  destruct B3 as [B3|B3]; [rewrite B3; exact A3 | now right].
Qed.

Lemma runCallback_progress (c : Callback) (w : World) :
  progress (st w) (st (runCallback c w)).
Proof.
  destruct c; cbn [runCallback].
  - unfold progress; cbn. repeat split; auto; lia.
  - unfold progress; cbn. auto.
  - destruct (currentProcedure (st w)); [|apply progress_refl].
    apply framed_progress, handleAction_framed.
  - unfold onQuizComplete, progress.
    destruct isAnswerCorrect; cbn; auto.
Qed.

Lemma handle_progress (e : Event) (w : World) :
  enabled (st w) e = true ->
  e <> Restart ->
  progress (st w) (st (handle e w)).
Proof.
  intros En Hr. destruct e; cbn [handle].
  - cbn in En. apply Nat.eqb_eq in En.
    unfold progress; cbn. rewrite En. auto.
  - apply framed_progress, handleAction_framed.
  - apply framed_progress, handleDragStart_framed.
  - apply framed_progress, handleDrop_framed.
  - apply framed_progress, handleAction_framed.
  - destruct (stepIdIs (st w) "microscope_observation");
      apply framed_progress, handleAction_framed.
  - unfold progress; cbn. repeat split; auto; lia.
  - apply framed_progress, handleAction_framed.
  - apply progress_refl.
  - contradiction.
Qed.

Lemma exec_progress (w w' : World) (l : Label) :
  exec w l = Some w' ->
  is_restart l = false ->
  progress (st w) (st w').
Proof.
  destruct l as [t e|]; cbn [exec].
  - destruct (N.leb (now w) t && none_due_before t (timers w)
              && enabled (st w) e) eqn:G; [|discriminate].
    intros [= <-] Hr. rewrite st_render.
    apply andb_prop in G. destruct G as [_ En].
    apply (handle_progress e (mkWorld (st w) t (timers w)) En).
    intros ->. discriminate.
  - unfold fire. destruct (timers w) as [|[d c] q]; [discriminate|].
    intros [= <-] _. cbn [snd]. rewrite st_render.
    apply (runCallback_progress c (mkWorld (st w) (N.max (now w) d) q)).
Qed.

Lemma run_progress (ls : list Label) (w w' : World) :
  run ls w = Some w' ->
  no_restart ls = true ->
  progress (st w) (st w').
Proof.
  revert w. induction ls as [|l ls IH]; intros w; cbn.
  - intros [= <-] _. apply progress_refl.
  - destruct (exec w l) as [w1|] eqn:E; [|discriminate].
    intros R N. apply andb_prop in N. destruct N as [N1 N2].
    apply negb_true_iff in N1.
    eapply progress_trans; [eapply exec_progress; eauto | eauto].
Qed.

(** ** The smear quality *)

Lemma progress_nullOrGood (s s' : State) :
  progress s s' -> nullOrGood s -> nullOrGood s'.
Proof.
  unfold progress, nullOrGood. intros (_ & _ & [E|E]) H.
  - now rewrite E.
  - now right.
Qed.

Lemma exec_nullOrGood (w w' : World) (l : Label) :
  exec w l = Some w' -> nullOrGood (st w) -> nullOrGood (st w').
Proof.
  intros E H. destruct (is_restart l) eqn:R.
  - destruct l as [t [| | | | | | | | |]|]; try discriminate.
    cbn [exec] in E.
    destruct (N.leb (now w) t && none_due_before t (timers w)
              && enabled (st w) Restart); [|discriminate].
    injection E as <-. rewrite st_render. now left.
  - eapply progress_nullOrGood; [eapply exec_progress|]; eauto.
Qed.

Lemma run_nullOrGood (ls : list Label) (w w' : World) :
  run ls w = Some w' -> nullOrGood (st w) -> nullOrGood (st w').
Proof.
  revert w. induction ls as [|l ls IH]; intros w; cbn.
  - now intros [= <-].
  - destruct (exec w l) as [w1|] eqn:E; [|discriminate].
    intros R H. eapply IH; [exact R|]. eapply exec_nullOrGood; eauto.
Qed.

(** C10.  In every world the event loop can reach from the start,
    [smearQuality] is [null] or ['good'] (so never ['too_thick'] or
    ['too_thin']): the only writes are the ['good'] of
    [handleCreateSmear] and the [null] of [resetSimulation]; and
    [resetSimulation] sets it to [null]. *)
Theorem smearQuality_null_or_good (w : World) :
  reachable w ->
  nullOrGood (st w)
  /\ smearQuality (st w) <> Some "too_thick"
  /\ smearQuality (st w) <> Some "too_thin"
  /\ smearQuality (st (resetSimulation w)) = None.
Proof.
  intros [ls R].
  assert (H : nullOrGood (st w)).
  { eapply run_nullOrGood; [exact R|]. now left. }
  split; [exact H|].
  repeat split; destruct H as [H|H]; rewrite H; discriminate.
Qed.

Lemma wholeModule_runs :
  exists w, run wholeModule initialWorld = Some w
            /\ currentStep (st w) = 17 /\ score (st w) = 140
            /\ smearQuality (st w) = Some "good".
Proof.
  eexists. split; [vm_compute; reflexivity|]. repeat split.
Qed.

Lemma smearQuality_null_or_good_witness :
  let w := mkWorld (mkState 17 140 "" None None false true (Some "good")
                            false) 54000 [] in
  nullOrGood (st w)
  /\ smearQuality (st w) <> Some "too_thick"
  /\ smearQuality (st w) <> Some "too_thin"
  /\ smearQuality (st (resetSimulation w)) = None.
Proof.
  intro w. apply (smearQuality_null_or_good w).
  exists wholeModule. vm_compute. reflexivity.
Defined.

(** ** Reset *)

(** C3, as stated, fails: Next is clicked three times on the video
    screen; two of the delayed advances lead to the completion screen,
    the learner restarts, and the third one, filed before the restart,
    then moves the step pointer from 0 to 1. *)
Lemma stale_advance_after_reset :
  exists w w',
    run tripleNextThenRestart initialWorld = Some w
    /\ st w = initialState
    /\ timers w = [(42900%N, Advance)]
    /\ exec w Fire = Some w'
    /\ currentStep (st w') = 1
    /\ st w' <> initialState.
Proof.
  eexists. eexists.
  split; [vm_compute; reflexivity|].
  split; [reflexivity|].
  split; [reflexivity|].
  split; [vm_compute; reflexivity|].
  split; [reflexivity|discriminate].
Qed.

(** C3, amended.  After [resetSimulation], in any world, every state
    cell (step pointer, score, feedback, active tool, flags) has its
    start value; the pending callbacks are all still filed; a stale
    feedback clear that runs after the reset changes nothing, and a stale
    delayed advance still moves the step pointer, to 1. *)
Theorem reset_restores_state_not_timers (w : World) :
  let w0 := resetSimulation w in
  st w0 = initialState
  /\ timers w0 = timers w
  /\ (forall d q, timers w = (d, ClearFeedback) :: q ->
      exists w1, fire w0 = Some (ClearFeedback, w1)
                 /\ st w1 = initialState /\ timers w1 = q)
  /\ (forall d q, timers w = (d, Advance) :: q ->
      exists w1, fire w0 = Some (Advance, w1)
                 /\ currentStep (st w1) = 1).
Proof.
  cbv zeta. split; [reflexivity|]. split; [reflexivity|]. split.
  - intros d q Hq. unfold fire. cbn [resetSimulation upd timers].
    rewrite Hq. eexists. split; [reflexivity|].
    rewrite render_same by reflexivity. split; reflexivity.
  - intros d q Hq. unfold fire. cbn [resetSimulation upd timers].
    rewrite Hq. eexists. split; [reflexivity|].
    rewrite st_render. reflexivity.
Qed.

(** ** Flags and score first, step pointer later *)

(** C8, as stated, fails: once the drop of the swab on the finger is
    handled, the world on screen has the score of the step (10) and still
    the old step pointer (2); the pointer moves when the delayed advance
    runs, 1.5 s later. *)
Lemma score_shows_before_step_moves :
  exists w w',
    run fingerCleaned initialWorld = Some w
    /\ score (st w) = 10 /\ currentStep (st w) = 2
    /\ timers w = [(3600%N, Advance)]
    /\ exec w Fire = Some w'
    /\ score (st w') = 10 /\ currentStep (st w') = 3.
Proof.
  eexists. eexists.
  split; [vm_compute; reflexivity|].
  do 3 (split; [reflexivity|]).
  split; [vm_compute; reflexivity|].
  split; reflexivity.
Qed.

(** C8, amended.  A successful drop or create-smear action applies its
    flag changes and its score increment, and clears the active tool, in
    the one transition of the handler; the step pointer stays in that
    transition, and a delayed advance is filed 1.5 s ahead; when that
    callback runs it moves the step pointer by one and leaves score and
    flags alone. *)
Theorem score_now_advance_later (w : World) (i : Interaction) :
  (exists g, i = IDrop g) \/ i = ICreateSmear ->
  satisfies w i = true ->
  let w' := process i w in
  score (st w) < score (st w')
  /\ activeTool (st w') = None
  /\ currentStep (st w') = currentStep (st w)
  /\ timers w' = schedule (now w + 1500)%N Advance (timers w)
  /\ currentStep (st (runCallback Advance w')) = currentStep (st w) + 1
  /\ score (st (runCallback Advance w')) = score (st w')
  /\ flags (st (runCallback Advance w')) = flags (st w').
Proof.
  intros [[g ->]| ->] H; cbv zeta; cbn [process].
  - unfold satisfies in H. apply andb_prop in H. destruct H as [Ht H].
    unfold handleDrop. rewrite Ht. cbn [negb].
    destruct (currentProcedure (st w)) as [p|]; [|discriminate].
    rewrite (dropVerdict_locals g p (st w) (st w)
               (st (upd clearFeedback w))) in H.
    pose proof (dropVerdict_spec g p (st w) (st (upd clearFeedback w)))
      as [_ R].
    destruct (dropVerdict g p (st w) (st (upd clearFeedback w)))
      as [acc l]; cbn [fst snd] in *.
    destruct (R H) as (-> & Sc & St). cbn. rewrite St.
    repeat split; trivial.
  - cbn [satisfies] in H. unfold handleCreateSmear. rewrite H. cbn.
    repeat split; trivial. lia.
Qed.

Lemma score_now_advance_later_witness :
  let w := mkWorld (mkState 2 0 "" None (Some "alcohol_swab") false false
                            None false) 2100 [] in
  let w' := process (IDrop "finger") w in
  score (st w) < score (st w')
  /\ activeTool (st w') = None
  /\ currentStep (st w') = currentStep (st w)
  /\ timers w' = schedule (now w + 1500)%N Advance (timers w)
  /\ currentStep (st (runCallback Advance w')) = currentStep (st w) + 1
  /\ score (st (runCallback Advance w')) = score (st w')
  /\ flags (st (runCallback Advance w')) = flags (st w').
Proof.
  intro w.
  apply (score_now_advance_later w (IDrop "finger")).
  - left. exists "finger". reflexivity.
  - reflexivity.
Defined.

(** ** The auto-advance step *)








Lemma clearAutoTimer_clears (q : list (N * Callback)) :
  only_clears q -> clearAutoTimer q = q.
Proof.
  unfold clearAutoTimer.
  induction 1 as [|[d c] q He _ IH]; cbn; [reflexivity|].
  cbn in He. subst c. cbn. now rewrite IH.
Qed.







End BloodSmearFacts.

(** * Facts about the 3-D safety simulation *)

Section SafetyLabFacts.

Import SafetyLab.

Lemma keptFlags_refl (a : SimState) : keptFlags a a.
Proof. unfold keptFlags. auto. Qed.

Lemma keptFlags_trans (a b c : SimState) :
  keptFlags a b -> keptFlags b c -> keptFlags a c.
Proof. unfold keptFlags. intuition. Qed.

(** No handler moves the step pointer, and none clears the coat, goggles,
    calibration or disposal flag. *)
Lemma handle_keeps (e : Event) (s : State) :
  currentStep (result (handle e s)) = currentStep s
  /\ keptFlags (simState s) (simState (result (handle e s))).
Proof.
  destruct e as [| |picked|r|hit|]; cbn [handle].
  - unfold handleWearLabCoat.
    destruct (negb (wearingLabCoat (simState s)));
      unfold keptFlags; cbn; auto.
  - unfold handleWearGoggles.
    destruct (negb (wearingGoggles (simState s)));
      unfold keptFlags; cbn; auto.
  - unfold onPointerDown.
    repeat match goal with
           | |- context [if ?c then _ else _] => destruct c
           | |- context [match ?x with Some _ => _ | None => _ end] =>
               destruct x
           end; unfold keptFlags; cbn; auto.
  - unfold onPointerUp, when.
    repeat match goal with
           | |- context [if ?c then _ else _] => destruct c
           | |- context [match ?x with Some _ => _ | None => _ end] =>
               destruct x
           end; unfold keptFlags; cbn; auto.
  - unfold onBalanceClick.
    repeat match goal with
           | |- context [if ?c then _ else _] => destruct c
           end; unfold keptFlags; cbn; auto.
  - unfold keptFlags; cbn; auto.
Qed.

Lemma st_stepProgressionEffect (w : World) :
  st (stepProgressionEffect w) = st w.
Proof.
  unfold stepProgressionEffect.
  destruct (nth_error PROCEDURE (currentStep (st w))) as [cur|];
    [destruct (validate cur (simState (st w)))|]; reflexivity.
Qed.

(** One transition moves the step pointer by nothing or by one, and
    keeps the four flags. *)
Lemma exec_keeps (w w' : World) (l : Label) :
  exec w l = Some w' ->
  (currentStep (st w') = currentStep (st w)
   \/ currentStep (st w') = currentStep (st w) + 1)
  /\ keptFlags (simState (st w)) (simState (st w')).
Proof.
  unfold exec. destruct (negb (mounted (st w))); [discriminate|].
  destruct l as [t e|].
  - destruct (N.leb (now w) t && none_due_before t (timers w)
              && enabled (st w) e); [|discriminate].
    intros [= <-]. destruct (handle_keeps e (st w)) as [A B].
    destruct (simStateReplaced (handle e (st w)));
      rewrite ?st_stepProgressionEffect; cbn [st]; auto.
  - destruct (timers w) as [|[d [captured]] q]; [discriminate|].
    intros [= <-]. cbn [st]. unfold runCallback.
    match goal with
    | |- context [if ?c then _ else _] => destruct c
    end; cbn; split; auto using keptFlags_refl.
Qed.

Lemma run_keeps (ls : list Label) (w w' : World) :
  run ls w = Some w' ->
  currentStep (st w) <= currentStep (st w')
  /\ keptFlags (simState (st w)) (simState (st w')).
Proof.
  revert w. induction ls as [|l ls IH]; intros w; cbn.
  - intros [= <-]. split; [lia | apply keptFlags_refl].
  - destruct (exec w l) as [w1|] eqn:E; [|discriminate].
    intros R. destruct (exec_keeps _ _ _ E) as [A B].
    destruct (IH _ R) as [C D].
    split; [lia | eapply keptFlags_trans; eauto].
Qed.

(** Only the release of the cylinder at the waste bin clears a cylinder
    flag, and it sets the disposal flag in the same transition. *)
Lemma handle_clears_cylinder_flag (e : Event) (s : State) :
  cylinderFlagCleared (simState s) (simState (result (handle e s))) ->
  exists r, e = PointerUp r /\ nearBin r = true
            /\ wasteDisposed (simState (result (handle e s))) = true.
Proof.
  unfold cylinderFlagCleared.
  destruct e as [| |picked|r|hit|]; cbn [handle].
  - unfold handleWearLabCoat.
    destruct (negb (wearingLabCoat (simState s))); cbn;
      intros [[A B]|[[A B]|[A B]]]; congruence.
  - unfold handleWearGoggles.
    destruct (negb (wearingGoggles (simState s))); cbn;
      intros [[A B]|[[A B]|[A B]]]; congruence.
  - unfold onPointerDown.
    repeat match goal with
           | |- context [if ?c then _ else _] => destruct c
           | |- context [match ?x with Some _ => _ | None => _ end] =>
               destruct x
           end; cbn; intros [[A B]|[[A B]|[A B]]]; congruence.
  - intros H. exists r. split; [reflexivity|]. revert H.
    unfold onPointerUp, when.
    destruct (dragging (simState s)) as [name|];
      [|cbn; intros [[A B]|[[A B]|[A B]]]; congruence].
    destruct (name =? ""); [cbn; intros [[A B]|[[A B]|[A B]]]; congruence|].
    destruct (negb (existsb (String.eqb name) objects));
      [cbn; intros [[A B]|[[A B]|[A B]]]; congruence|].
    destruct (name =? "cylinder");
      [|destruct (name =? "pipette"); cbn;
        intros [[A B]|[[A B]|[A B]]]; congruence].
    destruct (nearBin r && cylinderFilled (simState s)) eqn:Bin.
    + apply andb_prop in Bin. destruct Bin as [Bin _]. intros _.
      split; [exact Bin|].
      repeat match goal with
             | |- context [if ?c then _ else _] => destruct c
             end; reflexivity.
    + repeat match goal with
             | |- context [if ?c then _ else _] => destruct c eqn:?
             end; cbn; intros [[A B]|[[A B]|[A B]]]; congruence.
  - unfold onBalanceClick.
    repeat match goal with
           | |- context [if ?c then _ else _] => destruct c
           end; cbn; intros [[A B]|[[A B]|[A B]]]; congruence.
  - cbn. intros [[A B]|[[A B]|[A B]]]; congruence.
Qed.

Lemma exec_clears_cylinder_flag (w w' : World) (l : Label) :
  exec w l = Some w' ->
  cylinderFlagCleared (simState (st w)) (simState (st w')) ->
  exists t r, l = User t (PointerUp r) /\ nearBin r = true
              /\ wasteDisposed (simState (st w')) = true.
Proof.
  unfold exec. destruct (negb (mounted (st w))); [discriminate|].
  destruct l as [t e|].
  - destruct (N.leb (now w) t && none_due_before t (timers w)
              && enabled (st w) e); [|discriminate].
    intros [= <-] H.
    assert (E : st (if simStateReplaced (handle e (st w))
                    then stepProgressionEffect
                           (mkWorld (result (handle e (st w))) t (timers w))
                    else mkWorld (result (handle e (st w))) t (timers w))
                = result (handle e (st w))).
    { destruct (simStateReplaced (handle e (st w)));
        rewrite ?st_stepProgressionEffect; reflexivity. }
    rewrite E in *.
    destruct (handle_clears_cylinder_flag e (st w) H) as (r & -> & B & D).
    exists t, r. auto.
  - destruct (timers w) as [|[d [captured]] q]; [discriminate|].
    intros [= <-]. cbn [st]. unfold runCallback, cylinderFlagCleared.
    match goal with
    | |- context [if ?c then _ else _] => destruct c
    end; cbn; intros [[A B]|[[A B]|[A B]]]; congruence.
Qed.

(** ** Scenario A and the validation gate *)

(** On the fresh engine one of the two flags alone files nothing: the
    step pointer stays at 0 and no callback is pending. *)
Lemma one_flag_keeps_step (t : N) (e : Event) (w : World) :
  e = WearLabCoat \/ e = WearGoggles ->
  exec initialWorld (User t e) = Some w ->
  currentStep (st w) = 0 /\ timers w = []
  /\ exists cur, nth_error PROCEDURE 0 = Some cur
                 /\ validate cur (simState (st w)) = false.
Proof.
  intros [-> | ->]; destruct t; cbn; intros H; inversion H; subst; cbn;
    repeat split; eexists; split; reflexivity.
Qed.

(** Both flags, in either order: one callback is filed, 850 ms after the
    second click; when it runs the step pointer is 1 and nothing is
    pending any more, so the engine advances once. *)
Lemma both_flags_advance_once (t1 t2 : N) (e1 e2 : Event) (w : World) :
  (e1 = WearLabCoat /\ e2 = WearGoggles)
  \/ (e1 = WearGoggles /\ e2 = WearLabCoat) ->
  run [User t1 e1; User t2 e2] initialWorld = Some w ->
  currentStep (st w) = 0
  /\ timers w = [((t2 + 850)%N, Progress 0)]
  /\ exists w', exec w Fire = Some w'
                /\ currentStep (st w') = 1 /\ timers w' = [].
Proof.
  assert (Z : forall t, N.leb 0 t = true) by (now destruct t).
  intros [[-> ->] | [-> ->]]; cbn; rewrite Z; cbn;
    (destruct (N.leb t1 t2); cbn; [|discriminate]);
    intros H; inversion H; subst; cbn; repeat split;
    eexists; repeat split.
Qed.

(** A user event files a callback only when the validator of the current
    step holds on the new flags, and then files exactly one. *)
Lemma advance_filed_only_when_valid (w w' : World) (t : N) (e : Event) :
  exec w (User t e) = Some w' ->
  timers w' = timers w
  \/ exists cur,
      nth_error PROCEDURE (currentStep (st w')) = Some cur
      /\ validate cur (simState (st w')) = true
      /\ timers w' = schedule (t + 850)%N (Progress (currentStep (st w')))
                              (timers w).
Proof.
  unfold exec. destruct (negb (mounted (st w))); [discriminate|].
  destruct (N.leb (now w) t && none_due_before t (timers w)
            && enabled (st w) e); [|discriminate].
  intros [= <-].
  destruct (simStateReplaced (handle e (st w))); [|now left].
  unfold stepProgressionEffect. cbn [st].
  destruct (nth_error PROCEDURE (currentStep (result (handle e (st w)))))
    as [cur|] eqn:Hc; [|now left].
  destruct (validate cur (simState (result (handle e (st w))))) eqn:V;
    [|now left].
  right. exists cur. cbn. rewrite Hc. auto.
Qed.

(** C6, where the code departs from it.  The cylinder is put on the
    bench at step 2 and grabbed again 100 ms later: the grab replaces
    [simState] while step 2 is still current and still valid, so a second
    callback is filed; the first moves the step pointer to 3, the second
    moves it on to 4, although the cylinder was never weighed: the
    validator of step 3 holds in no world of the session. *)
Lemma step_three_skipped :
  exists w,
    run regrabbedCylinder initialWorld = Some w
    /\ currentStep (st w) = 4
    /\ List.length (trajectory regrabbedCylinder initialWorld)
       = S (List.length regrabbedCylinder)
    /\ Forall (fun x => cylinderWeighed (simState (st x)) = false)
              (trajectory regrabbedCylinder initialWorld).
Proof.
  eexists. split; [vm_compute; reflexivity|].
  split; [reflexivity|]. split; [vm_compute; reflexivity|].
  vm_compute. repeat constructor.
Qed.

End SafetyLabFacts.

(** * The step pointer and the flags, in both programs *)

Section StepPointer.

Import BloodSmear.

Lemma runCallback_step_by_one (c : Callback) (w : World) :
  currentStep (st (runCallback c w)) = currentStep (st w)
  \/ currentStep (st (runCallback c w)) = currentStep (st w) + 1.
Proof.
  destruct c; cbn [runCallback].
  - right. reflexivity.
  - left. reflexivity.
  - left. destruct (currentProcedure (st w)); [|reflexivity].
    apply handleAction_framed.
  - left. unfold onQuizComplete. now destruct isAnswerCorrect.
Qed.

Lemma handle_step_by_one (e : Event) (w : World) :
  enabled (st w) e = true ->
  e <> Restart ->
  currentStep (st (handle e w)) = currentStep (st w)
  \/ currentStep (st (handle e w)) = currentStep (st w) + 1.
Proof.
  intros En Hr. destruct e; cbn [handle].
  - right. cbn in En. apply Nat.eqb_eq in En. cbn. now rewrite En.
  - left. apply handleAction_framed.
  - left. apply handleDragStart_framed.
  - left. apply handleDrop_framed.
  - left. apply handleAction_framed.
  - left. destruct (stepIdIs (st w) "microscope_observation");
      apply handleAction_framed.
  - right. reflexivity.
  - left. apply handleAction_framed.
  - left. reflexivity.
  - contradiction.
Qed.

Lemma exec_step_by_one (w w' : World) (l : Label) :
  exec w l = Some w' ->
  is_restart l = false ->
  currentStep (st w') = currentStep (st w)
  \/ currentStep (st w') = currentStep (st w) + 1.
Proof.
  destruct l as [t e|]; cbn [exec].
  - destruct (N.leb (now w) t && none_due_before t (timers w)
              && enabled (st w) e) eqn:G; [|discriminate].
    intros [= <-] Hr. rewrite st_render.
    apply andb_prop in G. destruct G as [_ En].
    apply (handle_step_by_one e (mkWorld (st w) t (timers w)) En).
    intros ->. discriminate.
  - unfold fire. destruct (timers w) as [|[d c] q]; [discriminate|].
    intros [= <-] _. cbn [snd]. rewrite st_render.
    apply (runCallback_step_by_one c (mkWorld (st w) (N.max (now w) d) q)).
Qed.

(** Of the handlers only [handleDrop] hides the blood drop. *)
Lemma handleCreateSmear_keeps_drop (w : World) :
  bloodDropVisible (st (handleCreateSmear w)) = bloodDropVisible (st w).
Proof.
  unfold handleCreateSmear.
  repeat match goal with
         | |- context [if ?c then _ else _] => destruct c
         end; reflexivity.
Qed.

Lemma handleDragStart_keeps_drop (t : string) (w : World) :
  bloodDropVisible (st (handleDragStart t w)) = bloodDropVisible (st w).
Proof.
  unfold handleDragStart.
  match goal with
  | |- context [if ?c then _ else _] => destruct c
  end; reflexivity.
Qed.

Lemma handleAction_keeps_drop (o : option string) (w : World) :
  bloodDropVisible (st w) = true ->
  bloodDropVisible (st (world_of (handleAction o w))) = true.
Proof.
  intros H. unfold handleAction.
  destruct (currentProcedure (st w)) as [p|]; [|exact H].
  pose proof (actionSwitch_spec o p (st w) (st (upd clearFeedback w))) as S.
  destruct (actionSwitch o p (st w) (st (upd clearFeedback w)))
    as [a l| | |a]; cbn [switchSpec] in S.
  - destruct S as (_ & _ & [->|[(t & _ & ->)|[(-> & _)|(-> & _)]]]);
      repeat match goal with
             | |- context [if ?c then _ else _] => destruct c
             end; cbn; auto.
  - cbn [world_of].
    now rewrite (handleCreateSmear_keeps_drop (upd clearFeedback w)).
  - exact H.
  - destruct S as [->| ->]; exact H.
Qed.

Lemma exec_clears_blood_drop (w w' : World) (l : Label) :
  exec w l = Some w' ->
  bloodDropVisible (st w) = true ->
  bloodDropVisible (st w') = false ->
  (exists t g, l = User t (Drop g)) \/ is_restart l = true.
Proof.
  destruct l as [t e|]; cbn [exec].
  - destruct (N.leb (now w) t && none_due_before t (timers w)
              && enabled (st w) e); [|discriminate].
    intros [= <-] H. rewrite st_render.
    set (w0 := mkWorld (st w) t (timers w)).
    change (bloodDropVisible (st w0) = true) in H.
    destruct e; cbn [handle]; intros F;
      try (rewrite (handleAction_keeps_drop _ w0 H) in F; discriminate).
    + subst w0. cbn in *. congruence.
    + rewrite handleDragStart_keeps_drop in F. congruence.
    + left. eauto.
    + destruct (stepIdIs (st w0) "microscope_observation");
        rewrite (handleAction_keeps_drop _ w0 H) in F; discriminate.
    + subst w0. cbn in *. congruence.
    + subst w0. cbn in *. congruence.
    + now right.
  - unfold fire. destruct (timers w) as [|[d c] q]; [discriminate|].
    intros [= <-] H. cbn [snd]. rewrite st_render.
    set (w0 := mkWorld (st w) (N.max (now w) d) q).
    change (bloodDropVisible (st w0) = true) in H.
    destruct c; cbn [runCallback]; intros F.
    + subst w0. cbn in *. congruence.
    + subst w0. cbn in *. congruence.
    + destruct (currentProcedure (st w0)); [|congruence].
      rewrite (handleAction_keeps_drop _ w0 H) in F. discriminate.
    + unfold onQuizComplete in F. subst w0.
      destruct isAnswerCorrect; cbn in *; congruence.
Qed.

(** ** The held tool has a name *)

Lemma catalog_names :
  Forall (fun p => target p <> Some "" /\ tool p <> Some "")
         labProcedureSteps.
Proof. repeat constructor; discriminate. Qed.

Lemma currentProcedure_names (s : State) (p : Step) :
  currentProcedure s = Some p ->
  target p <> Some "" /\ tool p <> Some "".
Proof.
  intros H. apply nth_error_In in H.
  exact (proj1 (Forall_forall _ _) catalog_names p H).
Qed.

Lemma strict_eq_true (a b : option string) :
  strict_eq a b = true -> a = b.
Proof.
  destruct a, b; cbn; try discriminate; [|reflexivity].
  intros H. apply String.eqb_eq in H. now subst.
Qed.

Lemma handleDrop_toolNamed (g : string) (w : World) :
  toolNamed (st w) -> toolNamed (st (world_of (handleDrop g w))).
Proof.
  unfold toolNamed, handleDrop. intros H.
  destruct (negb (truthy (activeTool (st w)))); [exact H|].
  destruct (currentProcedure (st w)) as [p|]; [|exact H].
  destruct (dropVerdict g p (st w) (st (upd clearFeedback w))) as [acc l].
  destruct (proceedToNextStep l); discriminate.
Qed.

Lemma handleCreateSmear_toolNamed (w : World) :
  toolNamed (st w) -> toolNamed (st (handleCreateSmear w)).
Proof.
  unfold toolNamed, handleCreateSmear. intros H.
  repeat match goal with
         | |- context [if ?c then _ else _] => destruct c
         end; cbn; first [exact H | discriminate].
Qed.

Lemma handleDragStart_toolNamed (t : string) (w : World) :
  toolNamed (st w) -> toolNamed (st (handleDragStart t w)).
Proof.
  unfold toolNamed, handleDragStart. intros H.
  destruct (currentProcedure (st w)) as [p|] eqn:Hp; [|exact H].
  destruct (strict_eq_undef (Some t) (tool p)) eqn:E; [|exact H].
  destruct (strict_eq (action p) (Some "use_tool_on_target")); [|exact H].
  cbn. apply strict_eq_undef_true in E. rewrite E.
  exact (proj2 (currentProcedure_names _ _ Hp)).
Qed.

Lemma handleAction_toolNamed (o : option string) (w : World) :
  toolNamed (st w) -> toolNamed (st (world_of (handleAction o w))).
Proof.
  unfold toolNamed, handleAction. intros H.
  destruct (currentProcedure (st w)) as [p|] eqn:Hp; [|exact H].
  pose proof (proj1 (currentProcedure_names _ _ Hp)) as Ht.
  unfold actionSwitch.
  destruct (is_action p "pick_up_tool").
  - destruct (strict_eq o (target p)) eqn:E.
    + apply strict_eq_true in E. destruct o as [t|]; cbn; congruence.
    + destruct (target p);
        repeat match goal with
               | |- context [if ?c then _ else _] => destruct c
               end; cbn; exact H.
  - repeat match goal with
           | |- context [if ?c then _ else _] => destruct c
           end; cbn; try exact H.
    apply (handleCreateSmear_toolNamed (upd clearFeedback w)). exact H.
Qed.

Lemma exec_toolNamed (w w' : World) (l : Label) :
  exec w l = Some w' -> toolNamed (st w) -> toolNamed (st w').
Proof.
  destruct l as [t e|]; cbn [exec].
  - destruct (N.leb (now w) t && none_due_before t (timers w)
              && enabled (st w) e); [|discriminate].
    intros [= <-] H. rewrite st_render.
    set (w0 := mkWorld (st w) t (timers w)).
    change (toolNamed (st w0)) in H.
    destruct e; cbn [handle];
      auto using handleAction_toolNamed, handleDrop_toolNamed,
        handleDragStart_toolNamed.
    + destruct (stepIdIs (st w0) "microscope_observation");
        now apply handleAction_toolNamed.
    + discriminate.
  - unfold fire. destruct (timers w) as [|[d c] q]; [discriminate|].
    intros [= <-] H. cbn [snd]. rewrite st_render.
    set (w0 := mkWorld (st w) (N.max (now w) d) q).
    change (toolNamed (st w0)) in H.
    destruct c; cbn [runCallback]; try exact H.
    + destruct (currentProcedure (st w0)); [|exact H].
      now apply handleAction_toolNamed.
    + unfold onQuizComplete. destruct isAnswerCorrect; exact H.
Qed.

(** In every world the event loop reaches, the held tool has a name. *)
Lemma reachable_toolNamed (w : World) : reachable w -> toolNamed (st w).
Proof.
  intros [ls R]. revert R.
  assert (G : forall w0, toolNamed (st w0) ->
                         run ls w0 = Some w -> toolNamed (st w)).
  { induction ls as [|l ls IH]; intros w0 H0; cbn.
    - now intros [= <-].
    - destruct (exec w0 l) as [w1|] eqn:E; [|discriminate].
      apply IH. eapply exec_toolNamed; eauto. }
  apply G. discriminate.
Qed.

(** The waiting step as the session that follows the instructions
    reaches it. *)
Lemma waiting_step_reached :
  run (firstn 16 toVideoScreen) initialWorld
  = Some (mkWorld (mkState 7 40 "" None None false false None false)
                  11600 [(13600%N, AutoStep)]).
Proof. vm_compute. reflexivity. Qed.





End StepPointer.

Section BothPrograms.

(** C4.  In the blood-smear simulation a transition other than Restart
    Simulation moves the step pointer by nothing or by one, so over a
    session without restart it never decreases, and [resetSimulation]
    sets it to 0; in the 3-D simulation, which has no reset, every
    transition moves it by nothing or by one and it never decreases. *)
Theorem step_pointer_never_goes_back :
  (forall w l w',
      BloodSmear.exec w l = Some w' ->
      BloodSmear.is_restart l = false ->
      BloodSmear.currentStep (BloodSmear.st w')
      = BloodSmear.currentStep (BloodSmear.st w)
      \/ BloodSmear.currentStep (BloodSmear.st w')
         = BloodSmear.currentStep (BloodSmear.st w) + 1)
  /\ (forall ls w w',
         BloodSmear.run ls w = Some w' ->
         BloodSmear.no_restart ls = true ->
         BloodSmear.currentStep (BloodSmear.st w)
         <= BloodSmear.currentStep (BloodSmear.st w'))
  /\ (forall w,
         BloodSmear.currentStep
           (BloodSmear.st (BloodSmear.resetSimulation w)) = 0)
  /\ (forall w l w',
         SafetyLab.exec w l = Some w' ->
         SafetyLab.currentStep (SafetyLab.st w')
         = SafetyLab.currentStep (SafetyLab.st w)
         \/ SafetyLab.currentStep (SafetyLab.st w')
            = SafetyLab.currentStep (SafetyLab.st w) + 1)
  /\ (forall ls w w',
         SafetyLab.run ls w = Some w' ->
         SafetyLab.currentStep (SafetyLab.st w)
         <= SafetyLab.currentStep (SafetyLab.st w')).
Proof.
  split; [intros w l w'; apply exec_step_by_one|].
  split.
  { intros ls w w' R N. now destruct (run_progress ls w w' R N). }
  split; [reflexivity|].
  split.
  { intros w l w' E. now destruct (exec_keeps w w' l E). }
  intros ls w w' R. now destruct (run_keeps ls w w' R).
Qed.

Lemma step_pointer_never_goes_back_witness :
  BloodSmear.currentStep (BloodSmear.st BloodSmear.initialWorld)
  <= BloodSmear.currentStep
       (BloodSmear.st
          (BloodSmear.mkWorld
             (BloodSmear.mkState 17 140 "" None None false true
                                 (Some "good") false) 54000 []))
  /\ SafetyLab.currentStep (SafetyLab.st SafetyLab.initialWorld)
     <= SafetyLab.currentStep
          (SafetyLab.st
             (SafetyLab.mkWorld
                (SafetyLab.mkState
                   (SafetyLab.mkSim true true false false false false false
                                    false None) 1 "" false) 860 [])).
Proof.
  destruct step_pointer_never_goes_back as (_ & B & _ & _ & S).
  split.
  - apply (B BloodSmear.wholeModule); vm_compute; reflexivity.
  - apply (S [SafetyLab.User 0 SafetyLab.WearLabCoat;
              SafetyLab.User 10 SafetyLab.WearGoggles; SafetyLab.Fire]).
    vm_compute. reflexivity.
Defined.

(** C5, as stated, fails in both programs: the wipe of the first blood
    drop hides the drop that the prick showed, and the release of the
    filled cylinder at the waste bin clears [cylinderFilled]; neither
    session has a restart. *)
Lemma interactions_clear_flags :
  (exists w w',
      BloodSmear.run BloodSmear.dropPricked BloodSmear.initialWorld = Some w
      /\ BloodSmear.bloodDropVisible (BloodSmear.st w) = true
      /\ BloodSmear.run BloodSmear.dropWiped w = Some w'
      /\ BloodSmear.no_restart BloodSmear.dropWiped = true
      /\ BloodSmear.bloodDropVisible (BloodSmear.st w') = false)
  /\ (exists w w',
         SafetyLab.run SafetyLab.cylinderFilledAtStepTwo
                       SafetyLab.initialWorld = Some w
         /\ SafetyLab.cylinderFilled (SafetyLab.simState (SafetyLab.st w))
            = true
         /\ SafetyLab.run SafetyLab.carriedToBin w = Some w'
         /\ SafetyLab.cylinderFilled (SafetyLab.simState (SafetyLab.st w'))
            = false).
Proof.
  split.
  - eexists. eexists.
    split; [vm_compute; reflexivity|].
    split; [reflexivity|].
    split; [vm_compute; reflexivity|].
    split; reflexivity.
  - eexists. eexists.
    split; [vm_compute; reflexivity|].
    split; [reflexivity|].
    split; [vm_compute; reflexivity|].
    reflexivity.
Qed.

(** C5, amended.  The flags start all false or none.  In the blood-smear
    simulation [resetSimulation] returns them to that; over a session
    without restart [slideHasBlood] and [smearQuality], once set, stay
    set; [bloodDropVisible] is hidden again only by a drop event or by
    the restart.  In the 3-D simulation, which has no restart, the coat,
    goggles, calibration and disposal flags, once set, stay set; a
    cylinder flag is cleared only by the release of the cylinder at the
    waste bin, which sets the disposal flag. *)
Theorem flags_cleared_only_as_designed :
  BloodSmear.flags BloodSmear.initialState = (false, false, None)
  /\ SafetyLab.initialSimState
     = SafetyLab.mkSim false false false false false false false false None
  /\ (forall w,
         BloodSmear.flags (BloodSmear.st (BloodSmear.resetSimulation w))
         = (false, false, None))
  /\ (forall ls w w',
         BloodSmear.run ls w = Some w' ->
         BloodSmear.no_restart ls = true ->
         (BloodSmear.slideHasBlood (BloodSmear.st w) = true ->
          BloodSmear.slideHasBlood (BloodSmear.st w') = true)
         /\ (BloodSmear.smearQuality (BloodSmear.st w) <> None ->
             BloodSmear.smearQuality (BloodSmear.st w') <> None))
  /\ (forall w l w',
         BloodSmear.exec w l = Some w' ->
         BloodSmear.bloodDropVisible (BloodSmear.st w) = true ->
         BloodSmear.bloodDropVisible (BloodSmear.st w') = false ->
         (exists t g, l = BloodSmear.User t (BloodSmear.Drop g))
         \/ BloodSmear.is_restart l = true)
  /\ (forall ls w w',
         SafetyLab.run ls w = Some w' ->
         SafetyLab.keptFlags (SafetyLab.simState (SafetyLab.st w))
                             (SafetyLab.simState (SafetyLab.st w')))
  /\ (forall w l w',
         SafetyLab.exec w l = Some w' ->
         SafetyLab.cylinderFlagCleared
           (SafetyLab.simState (SafetyLab.st w))
           (SafetyLab.simState (SafetyLab.st w')) ->
         exists t r,
           l = SafetyLab.User t (SafetyLab.PointerUp r)
           /\ SafetyLab.nearBin r = true
           /\ SafetyLab.wasteDisposed (SafetyLab.simState (SafetyLab.st w'))
              = true).
Proof.
  split; [reflexivity|]. split; [reflexivity|]. split; [reflexivity|].
  split.
  { intros ls w w' R N.
    destruct (run_progress ls w w' R N) as (_ & A & B).
    split; [exact A|]. intros Q. destruct B as [B|B]; rewrite B;
      [exact Q | discriminate]. }
  split; [intros w l w'; apply exec_clears_blood_drop|].
  split.
  { intros ls w w' R. now destruct (run_keeps ls w w' R). }
  intros w l w'. apply exec_clears_cylinder_flag.
Qed.

Lemma flags_cleared_only_as_designed_witness :
  (BloodSmear.slideHasBlood
     (BloodSmear.mkState 10 60 "" None None false true None false) = true ->
   BloodSmear.slideHasBlood
     (BloodSmear.mkState 17 140 "" None None false true (Some "good")
                         false) = true)
  /\ SafetyLab.keptFlags
       SafetyLab.initialSimState
       (SafetyLab.mkSim true true false false false false false false None).
Proof.
  destruct flags_cleared_only_as_designed as (_ & _ & _ & B & _ & S & _).
  split.
  - refine (proj1 (B (skipn 23 BloodSmear.wholeModule)
                      (BloodSmear.mkWorld
                         (BloodSmear.mkState 10 60 "" None None false true
                                             None false) 19600 [])
                      (BloodSmear.mkWorld
                         (BloodSmear.mkState 17 140 "" None None false true
                                             (Some "good") false) 54000 [])
                      _ _));
      vm_compute; reflexivity.
  - apply (S [SafetyLab.User 0 SafetyLab.WearLabCoat;
              SafetyLab.User 10 SafetyLab.WearGoggles; SafetyLab.Fire]
             SafetyLab.initialWorld
             (SafetyLab.mkWorld
                (SafetyLab.mkState
                   (SafetyLab.mkSim true true false false false false false
                                    false None) 1 "" false) 860 [])).
    vm_compute. reflexivity.
Defined.

End BothPrograms.


(** * Further facts about the blood-smear simulation *)

Section SmearFacts.

Import BloodSmear SmearView.

Ltac ifs :=
  repeat match goal with
         | |- context [if ?c then _ else _] => destruct c eqn:?
         end.

(** ** The catalog *)

Lemma catalog_wellFormed : Forall wellFormedStep labProcedureSteps.
Proof.
  repeat constructor; cbn; repeat split; intros; cbn in *;
    try discriminate; try congruence.
Qed.

Lemma currentProcedure_wellFormed (s : State) (p : Step) :
  currentProcedure s = Some p -> wellFormedStep p.
Proof.
  intros H. apply nth_error_In in H.
  exact (proj1 (Forall_forall _ _) catalog_wellFormed p H).
Qed.

(** ** The score *)

Lemma handleDrop_reward (g : string) (w : World) :
  exists k, In k rewards
            /\ score (st (world_of (handleDrop g w))) = score (st w) + k.
Proof.
  unfold handleDrop, dropVerdict, dropSwitch.
  destruct (negb (truthy (activeTool (st w))));
    [exists 0; cbn; auto|].
  destruct (currentProcedure (st w)) as [p|]; [|exists 0; cbn; auto].
  ifs; cbn;
    first [ exists 0; split; [cbn; auto 6 | lia]
          | exists 10; split; [cbn; auto 6 | lia]
          | exists 20; split; [cbn; auto 6 | lia] ].
Qed.

Lemma handleCreateSmear_reward (w : World) :
  exists k, In k rewards
            /\ score (st (handleCreateSmear w)) = score (st w) + k.
Proof.
  unfold handleCreateSmear. ifs; cbn;
    first [ exists 0; split; [cbn; auto 6 | lia]
          | exists 30; split; [cbn; auto 6 | lia] ].
Qed.

Lemma handleAction_reward (o : option string) (w : World) :
  exists k, In k rewards
            /\ score (st (world_of (handleAction o w))) = score (st w) + k.
Proof.
  unfold handleAction.
  destruct (currentProcedure (st w)) as [p|]; [|exists 0; cbn; auto].
  pose proof (actionSwitch_spec o p (st w) (st (upd clearFeedback w))) as S.
  destruct (actionSwitch o p (st w) (st (upd clearFeedback w)))
    as [a l| | |a]; cbn [switchSpec] in S.
  - destruct S as (Sc & _ & [->|[(t & _ & ->)|[(-> & _)|(-> & _)]]]);
      ifs; cbn; rewrite ?Sc; exists 0; split; cbn; auto.
  - destruct (handleCreateSmear_reward (upd clearFeedback w)) as (k & K & E).
    exists k. split; [exact K|]. cbn [world_of]. rewrite E. reflexivity.
  - exists 0. cbn. auto.
  - destruct S as [->| ->]; exists 0; cbn; auto.
Qed.

Lemma runCallback_reward (c : Callback) (w : World) :
  exists k, In k rewards
            /\ score (st (runCallback c w)) = score (st w) + k.
Proof.
  destruct c; cbn [runCallback].
  - exists 0. cbn. auto.
  - exists 0. cbn. auto.
  - destruct (currentProcedure (st w)); [|exists 0; cbn; auto].
    apply handleAction_reward.
  - unfold onQuizComplete. destruct isAnswerCorrect;
      [exists 50 | exists 0]; cbn; auto 8.
Qed.

(** X1.  A transition other than Restart Simulation adds one of the fixed
    rewards 0, 10, 20, 30 or 50 to the score; it never takes points
    away. *)
Theorem score_grows_by_rewards (w w' : World) (l : Label) :
  exec w l = Some w' ->
  is_restart l = false ->
  exists k, In k rewards /\ score (st w') = score (st w) + k.
Proof.
  destruct l as [t e|]; cbn [exec].
  - destruct (N.leb (now w) t && none_due_before t (timers w)
              && enabled (st w) e); [|discriminate].
    intros [= <-] Hr. rewrite st_render.
    set (w0 := mkWorld (st w) t (timers w)).
    change (score (st w)) with (score (st w0)).
    destruct e; cbn [handle];
      try apply handleAction_reward;
      try apply handleDrop_reward;
      try (exists 0; cbn; auto; fail).
    + unfold handleDragStart. ifs; exists 0; cbn; auto.
    + destruct (stepIdIs (st w0) "microscope_observation");
        apply handleAction_reward.
    + discriminate.
  - unfold fire. destruct (timers w) as [|[d c] q]; [discriminate|].
    intros [= <-] _. cbn [snd]. rewrite st_render.
    apply (runCallback_reward c (mkWorld (st w) (N.max (now w) d) q)).
Qed.

Lemma score_grows_by_rewards_witness :
  exists k, In k rewards
            /\ score (st (mkWorld (mkState 2 10 "Finger cleaned successfully!"
                                           (Some true) None false false None
                                           false) 2100 [(3600%N, Advance)]))
               = score (st (mkWorld (mkState 2 0 "" None
                                             (Some "alcohol_swab") false
                                             false None false)
                                    2000 [])) + k.
Proof.
  apply (score_grows_by_rewards _ _ (User 2100 (Drop "finger"))).
  - vm_compute. reflexivity.
  - reflexivity.
Defined.

(** ** Outside the catalog *)

Lemma handleAction_returns (o : option string) (w : World) (p : Step) :
  currentProcedure (st w) = Some p ->
  exists w', handleAction o w = Returned w'.
Proof.
  intros Hp. pose proof (currentProcedure_wellFormed _ _ Hp) as (Pick & _).
  unfold handleAction. rewrite Hp. unfold actionSwitch.
  destruct (is_action p "pick_up_tool").
  - specialize (Pick eq_refl).
    destruct (strict_eq o (target p)) eqn:E.
    + destruct o as [t|].
      * cbn. eexists. reflexivity.
      * destruct (target p); [discriminate | contradiction].
    + destruct (target p) as [t|]; [|contradiction].
      ifs; eexists; reflexivity.
  - ifs; eexists; reflexivity.
Qed.

Lemma handleDrop_returns (g : string) (w : World) :
  truthy (activeTool (st w)) = false
  \/ currentProcedure (st w) <> None ->
  exists w', handleDrop g w = Returned w'.
Proof.
  unfold handleDrop. intros [H|H].
  - rewrite H. cbn. eexists. reflexivity.
  - destruct (negb (truthy (activeTool (st w))));
      [eexists; reflexivity|].
    destruct (currentProcedure (st w)) as [p|]; [|contradiction].
    destruct (dropVerdict g p (st w) (st (upd clearFeedback w))).
    eexists. reflexivity.
Qed.

(** X2.  [handleAction] returns exactly when the step pointer is inside
    the catalog, and [handleDrop] exactly when it is inside the catalog
    or no tool is held; otherwise they throw on
    [labProcedureSteps[currentStep]] being [undefined], after the
    feedback has been cleared and before anything else is written. *)
Theorem handlers_throw_outside_catalog
        (o : option string) (g : string) (w : World) :
  ((exists w', handleAction o w = Returned w')
   <-> currentStep (st w) < List.length labProcedureSteps)
  /\ ((exists w', handleDrop g w = Returned w')
      <-> truthy (activeTool (st w)) = false
          \/ currentStep (st w) < List.length labProcedureSteps)
  /\ (forall w', handleAction o w = TypeError w'
                 \/ handleDrop g w = TypeError w' ->
                 w' = upd clearFeedback w).
Proof.
  assert (In_ : currentStep (st w) < List.length labProcedureSteps
                <-> currentProcedure (st w) <> None)
    by (symmetry; apply nth_error_Some).
  split; [|split].
  - split.
    + intros [w' H]. apply In_. unfold handleAction in H.
      destruct (currentProcedure (st w)); [discriminate|discriminate].
    + intros H. apply In_ in H.
      destruct (currentProcedure (st w)) as [p|] eqn:Hp; [|contradiction].
      now apply handleAction_returns with p.
  - split.
    + intros [w' H]. unfold handleDrop in H.
      destruct (truthy (activeTool (st w))); [|now left].
      right. apply In_. cbn [negb] in H.
      destruct (currentProcedure (st w)); discriminate.
    + intros [H|H]; apply handleDrop_returns; [now left|].
      right. now apply In_.
  - intros w' [H|H].
    + unfold handleAction in H.
      destruct (currentProcedure (st w)) as [p|] eqn:Hp.
      * destruct (handleAction_returns o w p Hp) as [w'' R].
        unfold handleAction in R. rewrite Hp in R. congruence.
      * congruence.
    + unfold handleDrop in H.
      destruct (negb (truthy (activeTool (st w)))); [discriminate|].
      destruct (currentProcedure (st w)) as [p|].
      * destruct (dropVerdict g p (st w) (st (upd clearFeedback w))).
        discriminate.
      * congruence.
Qed.

(** ** What the screen lets through *)

Lemma strict_eq_sym (a b : option string) : strict_eq a b = strict_eq b a.
Proof. destruct a, b; cbn; auto using String.eqb_sym. Qed.

Lemma stepIdIs_true (s : State) (i : string) :
  stepIdIs s i = true ->
  exists p, currentProcedure s = Some p /\ (id p =? i) = true.
Proof.
  unfold stepIdIs. destruct (currentProcedure s) as [p|]; [|discriminate].
  eauto.
Qed.

Lemma is_action_true (p : Step) (a : string) :
  is_action p a = true -> action p = Some a.
Proof. apply strict_eq_true. Qed.

Lemma interaction_of_event (w : World) (e : Event) (i : Interaction) :
  interactionOf (st w) e = Some i -> handle e w = process i w.
Proof.
  destruct e; cbn; intros [= <-]; try reflexivity.
  now destruct (stepIdIs (st w) "microscope_observation").
Qed.

Lemma button_accepted (w : World) (p : Step) (a o : string) :
  currentProcedure (st w) = Some p ->
  is_action p a = true ->
  (a = "next_step_button" /\ o = "next_button")
  \/ (a = "view_microscope" /\ o = "microscope_icon") ->
  satisfies w (IAction (Some o)) = true.
Proof.
  intros Hp Ha C. apply is_action_true in Ha.
  unfold satisfies. rewrite Hp. unfold actionSwitch, is_action.
  rewrite Ha. destruct C as [[-> ->]|[-> ->]]; reflexivity.
Qed.

Lemma drop_on_screen (w : World) (g : string) :
  enabled (st w) (Drop g) = true ->
  satisfies w (IDrop g) = true
  \/ (bloodDropVisible (st w) = false
      /\ stepIdIs (st w) "wipe_blood"
         || stepIdIs (st w) "collect_blood_on_slide" = true).
Proof.
  cbn [enabled]. intros En.
  apply andb_prop in En. destruct En as [_ En].
  unfold isCurrentlyActiveTarget in En.
  destruct (currentProcedure (st w)) as [p|] eqn:Hp; [|discriminate].
  apply andb_prop in En. destruct En as [Tg Tl].
  pose proof (currentProcedure_wellFormed _ _ Hp) as (_ & Use & _).
  pose proof (proj2 (currentProcedure_names _ _ Hp)) as Nm.
  pose proof (strict_eq_undef_true _ _ Tl) as Et.
  destruct (tool p) as [t|] eqn:Hto;
    [|destruct (activeTool (st w)); discriminate].
  destruct Use as [Ua Ui]; [discriminate|].
  assert (Tr : truthy (activeTool (st w)) = true).
  { rewrite Et. cbn. destruct (t =? "") eqn:E; [|reflexivity].
    apply String.eqb_eq in E. subst t. contradiction. }
  unfold satisfies, stepIdIs. rewrite Tr, Hp. cbn [andb].
  unfold dropVerdict, dropSwitch. unfold is_action in Ua.
  rewrite Ua, Hto, Tl, Tg. cbn [andb].
  destruct (id p =? "clean_finger"); [now left|].
  destruct (id p =? "apply_lancet"); [now left|].
  destruct (id p =? "wipe_blood").
  - destruct (bloodDropVisible (st w)); [now left | now right].
  - destruct (id p =? "collect_blood_on_slide"); [|discriminate].
    destruct (bloodDropVisible (st w)); [now left | now right].
Qed.

(** X3.  Every event the screen can send to a handler is one the handler
    accepts: a clickable tool is the tool to pick up, a draggable tool is
    the tool of the step, the Create Smear button is only there when the
    smear can be made, and the step buttons send the object their step
    asks for.  The one exception is a drop on the right target with the
    right tool while no blood drop is visible, at [wipe_blood] or
    [collect_blood_on_slide]. *)
Theorem screen_events_are_accepted (w : World) (e : Event) (i : Interaction) :
  enabled (st w) e = true ->
  interactionOf (st w) e = Some i ->
  handle e w = process i w
  /\ (satisfies w i = true
      \/ (exists g, e = Drop g)
         /\ bloodDropVisible (st w) = false
         /\ stepIdIs (st w) "wipe_blood"
            || stepIdIs (st w) "collect_blood_on_slide" = true).
Proof.
  intros En Hi. split; [now apply interaction_of_event|].
  destruct e; cbn [interactionOf] in Hi; try discriminate;
    injection Hi as <-; cbn [enabled] in En.
  - (* a tool button is clicked *)
    left. apply andb_prop in En. destruct En as [_ En].
    unfold isPickUpTarget in En.
    destruct (currentProcedure (st w)) as [p|] eqn:Hp; [|discriminate].
    apply andb_prop in En. destruct En as [Pa Pt].
    unfold satisfies. rewrite Hp. unfold actionSwitch.
    rewrite Pa, strict_eq_sym, Pt. reflexivity.
  - (* a tool button is dragged *)
    left. apply andb_prop in En. now destruct En as [_ En].
  - (* a drop on a target area *)
    destruct (drop_on_screen w targetId En) as [A|[B C]];
      [now left | right; eauto].
  - (* Create Smear *)
    left. apply andb_prop in En. destruct En as [En Bl].
    apply andb_prop in En. destruct En as [En To].
    apply andb_prop in En. destruct En as [_ Id].
    destruct (stepIdIs_true _ _ Id) as (p & Hp & Ip).
    pose proof (currentProcedure_wellFormed _ _ Hp) as (_ & _ & Sm & _).
    apply Sm, is_action_true in Ip.
    unfold satisfies. rewrite Hp. unfold actionSwitch, is_action.
    rewrite Ip. cbn. unfold smearAllowed. unfold stepIdIs in Id.
    now rewrite To, Bl, Id.
  - (* Next Step, View Smear, Continue *)
    left. apply andb_prop in En. destruct En as [_ En].
    destruct (stepIdIs (st w) "microscope_observation") eqn:M.
    + destruct (stepIdIs_true _ _ M) as (p & Hp & Ip).
      pose proof (currentProcedure_wellFormed _ _ Hp)
        as (_ & _ & _ & _ & Mi).
      apply (button_accepted w p "view_microscope"); auto.
    + rewrite orb_false_r in En.
      assert (exists p, currentProcedure (st w) = Some p
                        /\ (id p =? "air_dry")
                           || (id p =? "procedure_complete") = true)
        as (p & Hp & Ip).
      { unfold stepIdIs in En.
        destruct (currentProcedure (st w)) as [p|]; [eauto|discriminate]. }
      pose proof (currentProcedure_wellFormed _ _ Hp)
        as (_ & _ & _ & Nx & _).
      apply (button_accepted w p "next_step_button"); auto.
      apply Nx. apply orb_prop in Ip. destruct Ip as [-> | ->];
        cbn; rewrite ?orb_true_r; reflexivity.
  - (* Next of the video screen *)
    left. destruct (stepIdIs_true _ _ En) as (p & Hp & Ip).
    pose proof (currentProcedure_wellFormed _ _ Hp) as (_ & _ & _ & Nx & _).
    apply (button_accepted w p "next_step_button"); auto.
    apply Nx. rewrite Ip. now rewrite !orb_true_r.
Qed.

Lemma screen_events_are_accepted_witness :
  let w := mkWorld (mkState 6 40 "" None (Some "alcohol_swab") false false
                            None false) 10000 [] in
  handle (Drop "blood_drop") w = process (IDrop "blood_drop") w
  /\ (satisfies w (IDrop "blood_drop") = true
      \/ (exists g, Drop "blood_drop" = Drop g)
         /\ bloodDropVisible (st w) = false
         /\ stepIdIs (st w) "wipe_blood"
            || stepIdIs (st w) "collect_blood_on_slide" = true).
Proof.
  intro w. apply (screen_events_are_accepted w (Drop "blood_drop")).
  - reflexivity.
  - reflexivity.
Defined.

(** ** Dead ends *)

Lemma enabled_clearFeedback (s : State) (e : Event) :
  enabled (clearFeedback s) e = enabled s e.
Proof. destruct e; reflexivity. Qed.

Lemma fire_in_dead_end (w w' : World) (l : Label) :
  nothingToClick (st w) ->
  isAutoStep (st w) = false ->
  only_clears (timers w) ->
  exec w l = Some w' ->
  st w' = clearFeedback (st w)
  /\ exists d, timers w = (d, ClearFeedback) :: timers w'.
Proof.
  intros Hn Ha Hc. destruct l as [t e|]; cbn [exec].
  - rewrite (Hn e), andb_false_r. discriminate.
  - unfold fire. destruct (timers w) as [|[d c] q]; [discriminate|].
    inversion Hc as [|x y Hx Hy]; subst. cbn in Hx. subst c.
    intros [= <-]. cbn [snd runCallback]. rewrite st_render.
    split; [reflexivity|]. exists d. f_equal.
    unfold render, upd. cbn [st now timers].
    destruct (State_eq_dec _ _); [reflexivity|].
    unfold autoAdvanceEffect. cbn [st now timers].
    change (isAutoStep (clearFeedback (st w))) with (isAutoStep (st w)).
    rewrite Ha. now rewrite clearAutoTimer_clears.
Qed.

(** X4.  When no element with a handler is on screen, the step is not
    the waiting step and only feedback clears are pending, the session is
    over for good: whatever happens next, step pointer, score, flags and
    active tool stay as they are, nothing becomes clickable, and nothing
    but feedback clears is ever pending. *)
Theorem dead_end_is_forever (w : World) (ls : list Label) (w' : World) :
  nothingToClick (st w) ->
  isAutoStep (st w) = false ->
  only_clears (timers w) ->
  run ls w = Some w' ->
  currentStep (st w') = currentStep (st w)
  /\ score (st w') = score (st w)
  /\ flags (st w') = flags (st w)
  /\ activeTool (st w') = activeTool (st w)
  /\ nothingToClick (st w')
  /\ only_clears (timers w').
Proof.
  revert w. induction ls as [|l ls IH]; intros w Hn Ha Hc; cbn.
  - intros [= <-]. auto 10.
  - destruct (exec w l) as [w1|] eqn:E; [|discriminate].
    destruct (fire_in_dead_end w w1 l Hn Ha Hc E) as (S1 & d & T1).
    intros R.
    assert (Hn1 : nothingToClick (st w1)).
    { intros e. rewrite S1, enabled_clearFeedback. apply Hn. }
    assert (Ha1 : isAutoStep (st w1) = false) by (now rewrite S1).
    assert (Hc1 : only_clears (timers w1)).
    { rewrite T1 in Hc. now inversion Hc. }
    destruct (IH w1 Hn1 Ha1 Hc1 R) as (A & B & C & D & F & G).
    rewrite A, B, C, D, S1. auto 10.
Qed.

(** The world in which the clean slide was clicked twice: the smear step
    is current, no blood is on the slide, and nothing is pending. *)
Lemma smear_step_without_blood_reached :
  run slideClickedTwice initialWorld
  = Some (mkWorld (mkState 11 40 "" None (Some "spreader_slide") true false
                           None false) 21500 []).
Proof. vm_compute. reflexivity. Qed.

(** The world in which Next was clicked three times on the video screen:
    the step pointer is past the catalog. *)
Lemma past_the_catalog_reached :
  run tripleNext initialWorld
  = Some (mkWorld (mkState 18 90 "" None None false true (Some "good")
                           false) 42900 []).
Proof. vm_compute. reflexivity. Qed.

(** Past the catalog, with the microscope view closed, nothing is on
    screen that has a handler: no Restart button either. *)
Lemma nothing_to_click_past_catalog (s : State) :
  List.length labProcedureSteps <= currentStep s ->
  showMicroscopeView s = false ->
  nothingToClick s.
Proof.
  intros H M e.
  assert (Hp : currentProcedure s = None) by (now apply nth_error_None).
  assert (W : workspaceVisible s = false).
  { unfold workspaceVisible.
    replace (Nat.ltb (currentStep s)
                     (findIndex "video_demonstration" labProcedureSteps))
      with false; [now rewrite andb_false_r|].
    symmetry. apply Nat.ltb_ge. cbn in *. lia. }
  destruct e; cbn [enabled]; rewrite ?W; unfold stepIdIs; rewrite ?Hp;
    try reflexivity.
  - apply Nat.eqb_neq. cbn in H. lia.
  - exact M.
Qed.

Lemma dead_end_is_forever_witness :
  let w := mkWorld (mkState 11 40 "" None (Some "spreader_slide") true false
                            None false) 21500 [(22000%N, ClearFeedback)] in
  let w' := mkWorld (mkState 11 40 "" None (Some "spreader_slide") true false
                             None false) 22000 [] in
  currentStep (st w') = currentStep (st w)
  /\ score (st w') = score (st w)
  /\ flags (st w') = flags (st w)
  /\ activeTool (st w') = activeTool (st w)
  /\ nothingToClick (st w')
  /\ only_clears (timers w').
Proof.
  intros w w'.
  apply (dead_end_is_forever w [Fire] w').
  - intros e. destruct e; cbn; rewrite ?andb_false_r; reflexivity.
  - reflexivity.
  - repeat constructor.
  - vm_compute. reflexivity.
Defined.

(** ** What the handlers leave in the timer queue *)

Lemma tidy_filed (w w' : World) (d : N) (c : Callback) :
  clearsFeedback c = true ->
  timers w' = schedule d c (timers w) ->
  tidy w w'.
Proof. intros. right. eauto. Qed.

Lemma handleDrop_tidy (g : string) (w : World) :
  tidy w (world_of (handleDrop g w)).
Proof.
  unfold handleDrop.
  destruct (negb (truthy (activeTool (st w)))).
  - now apply tidy_filed with (now w + 3000)%N ClearFeedback.
  - destruct (currentProcedure (st w)) as [p|]; [|now left].
    destruct (dropVerdict g p (st w) (st (upd clearFeedback w))) as [acc l].
    destruct (proceedToNextStep l).
    + now apply tidy_filed with (now w + 1500)%N Advance.
    + now apply tidy_filed with (now w + 3000)%N ClearFeedback.
Qed.

Lemma handleDragStart_tidy (t : string) (w : World) :
  tidy w (handleDragStart t w).
Proof.
  unfold handleDragStart.
  match goal with
  | |- context [if ?c then _ else _] => destruct c
  end.
  - now left.
  - now apply tidy_filed with (now w + 3000)%N ClearFeedback.
Qed.

Lemma handleCreateSmear_tidy (w : World) :
  tidy w (handleCreateSmear w).
Proof.
  unfold handleCreateSmear. destruct (smearAllowed (st w)).
  - now apply tidy_filed with (now w + 1500)%N Advance.
  - apply tidy_filed with (now w + 3000)%N ClearFeedback; [reflexivity|].
    ifs; reflexivity.
Qed.

Lemma handleAction_tidy (o : option string) (w : World) :
  tidy w (world_of (handleAction o w)).
Proof.
  unfold handleAction.
  destruct (currentProcedure (st w)) as [p|]; [|now left].
  pose proof (actionSwitch_spec o p (st w) (st (upd clearFeedback w))) as S.
  destruct (actionSwitch o p (st w) (st (upd clearFeedback w)))
    as [a l| | |a]; cbn [switchSpec] in S.
  - assert (Fa : feedbackMessage a = "").
    { destruct S as (_ & _ & [->|[(t & _ & ->)|[(-> & _)|(-> & _)]]]);
        reflexivity. }
    destruct (proceedToNextStep l).
    + now apply tidy_filed with (now w + 1500)%N Advance.
    + destruct (negb (is_action p "click_create_smear")
                && negb (is_action p "mcq_handled_internally")
                && negb (is_action p "view_microscope")).
      * now apply tidy_filed with (now w + 3000)%N ClearFeedback.
      * now left.
  - destruct (handleCreateSmear_tidy (upd clearFeedback w)) as [[A B]|B];
      [left | right]; exact (conj A B) || exact B.
  - now left.
  - left. destruct S as [->| ->]; split; reflexivity.
Qed.

Lemma existsb_schedule (P : N * Callback -> bool) (d : N) (c : Callback)
      (q : list (N * Callback)) :
  existsb P (schedule d c q) = P (d, c) || existsb P q.
Proof.
  induction q as [|[d' c'] q IH]; cbn.
  - reflexivity.
  - destruct (N.leb d' d); cbn; [rewrite IH|]; 
      destruct (P (d, c)), (P (d', c')); reflexivity.
Qed.

Lemma existsb_clearAutoTimer (P : N * Callback -> bool)
      (q : list (N * Callback)) :
  (forall e, P e = true -> is_auto (snd e) = false) ->
  existsb P (clearAutoTimer q) = existsb P q.
Proof.
  intros H. unfold clearAutoTimer.
  induction q as [|e q IH]; cbn; [reflexivity|].
  destruct (is_auto (snd e)) eqn:A; cbn; rewrite IH; [|reflexivity].
  destruct (P e) eqn:Pe; [|reflexivity].
  rewrite (H e Pe) in A. discriminate.
Qed.

(** ** Feedback does not stay *)

Lemma tidy_feedbackWillClear (w w' : World) :
  tidy w w' -> feedbackWillClear (st w') (timers w').
Proof.
  intros [[A _]|(d & c & C & T)]; [now left|right].
  unfold clearPending. rewrite T, existsb_schedule. cbn. now rewrite C.
Qed.

Lemma render_feedbackWillClear (before : State) (w : World) :
  feedbackWillClear (st w) (timers w) ->
  feedbackWillClear (st (render before w)) (timers (render before w)).
Proof.
  unfold render. destruct (State_eq_dec before (st w)); [auto|].
  intros [A|B]; [now left|right].
  unfold autoAdvanceEffect. cbn [timers]. unfold clearPending in *.
  assert (C : existsb (fun e => clearsFeedback (snd e))
                      (clearAutoTimer (timers w)) = true).
  { rewrite existsb_clearAutoTimer; [exact B|].
    intros [d c]; cbn. now destruct c. }
  destruct (isAutoStep (st w)); [|exact C].
  rewrite existsb_schedule, C. apply orb_true_r.
Qed.

Lemma exec_feedbackWillClear (w w' : World) (l : Label) :
  exec w l = Some w' ->
  feedbackWillClear (st w) (timers w) ->
  feedbackWillClear (st w') (timers w').
Proof.
  destruct l as [t e|]; cbn [exec].
  - destruct (N.leb (now w) t && none_due_before t (timers w)
              && enabled (st w) e); [|discriminate].
    intros [= <-] H. apply render_feedbackWillClear.
    set (w0 := mkWorld (st w) t (timers w)).
    change (feedbackWillClear (st w0) (timers w0)) in H.
    destruct e; cbn [handle];
      try (apply (tidy_feedbackWillClear w0);
           first [ apply handleAction_tidy | apply handleDrop_tidy
                 | apply handleDragStart_tidy ]).
    + exact H.
    + destruct (stepIdIs (st w0) "microscope_observation");
        apply (tidy_feedbackWillClear w0); apply handleAction_tidy.
    + exact H.
    + destruct H as [A|B]; [now left|right].
      unfold clearPending in *. cbn [setTimeout timers].
      rewrite existsb_schedule, B. apply orb_true_r.
    + now left.
  - unfold fire. destruct (timers w) as [|[d c] q]; [discriminate|].
    intros [= <-] H. cbn [snd]. apply render_feedbackWillClear.
    set (w0 := mkWorld (st w) (N.max (now w) d) q).
    destruct c; cbn [runCallback].
    + now left.
    + now left.
    + destruct (currentProcedure (st w0));
        [apply (tidy_feedbackWillClear w0), handleAction_tidy|].
      destruct H as [A|B]; [now left | now right].
    + right. unfold onQuizComplete, clearPending.
      destruct isAnswerCorrect; cbn [setTimeout timers upd];
        now rewrite existsb_schedule.
Qed.

Lemma clearsFeedback_runs (c : Callback) (w : World) :
  clearsFeedback c = true -> feedbackMessage (st (runCallback c w)) = "".
Proof. destruct c; intros [=]; reflexivity. Qed.

(** X5.  In every world the event loop reaches, a feedback message on
    screen has a callback pending that clears it when it runs (a
    feedback clear or a delayed advance): no message stays for good. *)
Theorem feedback_never_stays (w : World) :
  reachable w ->
  feedbackMessage (st w) <> "" ->
  exists d c, In (d, c) (timers w)
              /\ forall w0, feedbackMessage (st (runCallback c w0)) = "".
Proof.
  intros [ls R] Hf.
  assert (G : forall w0, feedbackWillClear (st w0) (timers w0) ->
                         run ls w0 = Some w ->
                         feedbackWillClear (st w) (timers w)).
  { clear R Hf. induction ls as [|l ls IH]; intros w0 H0; cbn.
    - now intros [= <-].
    - destruct (exec w0 l) as [w1|] eqn:E; [|discriminate].
      apply IH. eapply exec_feedbackWillClear; eauto. }
  destruct (G initialWorld (or_introl eq_refl) R) as [A|B];
    [contradiction|].
  unfold clearPending in B. apply existsb_exists in B.
  destruct B as ([d c] & I & C). exists d, c. split; [exact I|].
  intros w0. now apply clearsFeedback_runs.
Qed.

Lemma feedback_never_stays_witness :
  let w := mkWorld (mkState 2 10 "Finger cleaned successfully!" (Some true)
                            None false false None false)
                   2100 [(3600%N, Advance)] in
  exists d c, In (d, c) (timers w)
              /\ forall w0, feedbackMessage (st (runCallback c w0)) = "".
Proof.
  intro w. apply (feedback_never_stays w).
  - exists fingerCleaned. vm_compute. reflexivity.
  - discriminate.
Defined.

(** ** The auto-advance timer *)

Lemma isAutoStep_waiting (s : State) :
  isAutoStep s = true <-> currentStep s = waitStepIndex.
Proof.
  assert (W : waitStepIndex = 7) by reflexivity. rewrite W.
  unfold isAutoStep, currentProcedure. destruct s as [n ? ? ? ? ? ? ? ?].
  cbn [currentStep].
  do 18 (destruct n as [|n];
         [cbn; split; intros H; first [discriminate H | reflexivity]|]).
  cbn. rewrite nth_error_nil. split; intros H; discriminate H.
Qed.

Lemma autoPending_schedule (d : N) (c : Callback) (q : list (N * Callback)) :
  autoPending (schedule d c q)
  = (if is_auto c then 1 else 0) + autoPending q.
Proof.
  unfold autoPending. induction q as [|[d' c'] q IH]; cbn.
  - destruct (is_auto c); reflexivity.
  - destruct (N.leb d' d); cbn.
    + destruct (is_auto c'); cbn; rewrite IH; lia.
    + destruct (is_auto c), (is_auto c'); reflexivity.
Qed.

Lemma autoPending_clearAutoTimer (q : list (N * Callback)) :
  autoPending (clearAutoTimer q) = 0.
Proof.
  unfold autoPending, clearAutoTimer.
  induction q as [|[d c] q IH]; cbn; [reflexivity|].
  destruct (is_auto c) eqn:A; cbn; [exact IH|]. now rewrite A.
Qed.

Lemma autoAdvanceEffect_ok (w : World) :
  autoTimerOK (st (autoAdvanceEffect w)) (timers (autoAdvanceEffect w)).
Proof.
  unfold autoAdvanceEffect, autoTimerOK. cbn [st timers].
  destruct (isAutoStep (st w)).
  - rewrite autoPending_schedule, autoPending_clearAutoTimer. cbn. auto.
  - rewrite autoPending_clearAutoTimer.
    repeat split; [lia | intros H; discriminate H ..].
Qed.

Lemma autoTimerOK_grows (s : State) (q q' : list (N * Callback)) :
  autoTimerOK s q ->
  q' = q \/ (exists d c, is_auto c = false /\ q' = schedule d c q) ->
  autoTimerOK s q'.
Proof.
  intros H [->|(d & c & A & ->)]; [exact H|].
  destruct H as (H1 & H2 & H3). unfold autoTimerOK, advancePending.
  rewrite autoPending_schedule, existsb_schedule, A. cbn [Nat.add].
  repeat split; auto.
  intros I. destruct (H3 I) as [J|J]; [now left|right].
  unfold advancePending in J. rewrite J. apply orb_true_r.
Qed.

Lemma tidy_grows (w w' : World) :
  tidy w w' ->
  timers w' = timers w
  \/ exists d c, is_auto c = false /\ timers w' = schedule d c (timers w).
Proof.
  intros [[_ A]|(d & c & C & T)]; [now left|right].
  exists d, c. split; [now destruct c|exact T].
Qed.

Lemma handle_grows (e : Event) (w : World) :
  timers (handle e w) = timers w
  \/ exists d c, is_auto c = false
                 /\ timers (handle e w) = schedule d c (timers w).
Proof.
  destruct e; cbn [handle];
    try (apply tidy_grows;
         first [ apply handleAction_tidy | apply handleDrop_tidy
               | apply handleDragStart_tidy ]);
    try (now left).
  - destruct (stepIdIs (st w) "microscope_observation");
      apply tidy_grows, handleAction_tidy.
  - right. exists (now w + 2000)%N, (QuizComplete isAnswerCorrect).
    split; reflexivity.
Qed.

Lemma auto_step_files_advance (w : World) :
  isAutoStep (st w) = true ->
  timers (runCallback AutoStep w)
  = schedule (now w + 1500)%N Advance (timers w).
Proof.
  intros H. apply isAutoStep_waiting in H.
  destruct w as [[n sc f ic a b sl q m] t ts]. cbn in H. subst n.
  reflexivity.
Qed.

Lemma render_autoTimerOK (before : State) (w : World) :
  (before = st w -> autoTimerOK before (timers w)) ->
  autoTimerOK (st (render before w)) (timers (render before w)).
Proof.
  intros H. unfold render.
  destruct (State_eq_dec before (st w)) as [E|_].
  - rewrite <- E. auto.
  - apply autoAdvanceEffect_ok.
Qed.

Lemma exec_autoTimerOK (w w' : World) (l : Label) :
  exec w l = Some w' ->
  autoTimerOK (st w) (timers w) ->
  autoTimerOK (st w') (timers w').
Proof.
  destruct l as [t e|]; cbn [exec].
  - destruct (N.leb (now w) t && none_due_before t (timers w)
              && enabled (st w) e); [|discriminate].
    intros [= <-] H. apply render_autoTimerOK. intros _.
    apply (autoTimerOK_grows _ _ _ H).
    apply (handle_grows e (mkWorld (st w) t (timers w))).
  - unfold fire. destruct (timers w) as [|[d c] q]; [discriminate|].
    intros [= <-] H. cbn [snd]. apply render_autoTimerOK.
    set (w0 := mkWorld (st w) (N.max (now w) d) q). intros E.
    destruct H as (H1 & H2 & H3).
    destruct c.
    + exfalso. apply (f_equal currentStep) in E. cbn in E. lia.
    + cbn [runCallback upd timers w0]. repeat split; auto.
    + unfold autoPending in H1, H2. cbn in H1, H2.
      fold (autoPending q) in H1, H2.
      assert (A : isAutoStep (st w) = true) by (apply H2; lia).
      rewrite (auto_step_files_advance w0 A).
      subst w0. cbn [timers now].
      unfold autoTimerOK, advancePending.
      assert (Z : autoPending q = 0) by lia.
      rewrite autoPending_schedule, existsb_schedule, Z. cbn.
      repeat split; [lia | intros _; exact A | intros _; now right].
    + apply autoTimerOK_grows with q; [repeat split; auto|].
      right. exists (now w0 + 2000)%N, Advance. split; [reflexivity|].
      unfold onQuizComplete. destruct isAnswerCorrect; reflexivity.
Qed.

(** X6.  In every world the event loop reaches, at most one auto-advance
    callback is pending, and only while the step pointer is on the
    waiting step; on the waiting step the auto-advance callback or a
    delayed advance is pending, so the simulation does not stay there. *)
Theorem auto_timer_only_on_waiting_step (w : World) :
  reachable w ->
  autoPending (timers w) <= 1
  /\ (autoPending (timers w) = 1 -> currentStep (st w) = waitStepIndex)
  /\ (currentStep (st w) = waitStepIndex ->
      autoPending (timers w) = 1 \/ advancePending (timers w) = true).
Proof.
  intros [ls R].
  assert (G : forall w0, autoTimerOK (st w0) (timers w0) ->
                         run ls w0 = Some w ->
                         autoTimerOK (st w) (timers w)).
  { clear R. induction ls as [|l ls IH]; intros w0 H0; cbn.
    - now intros [= <-].
    - destruct (exec w0 l) as [w1|] eqn:E; [|discriminate].
      apply IH. eapply exec_autoTimerOK; eauto. }
  destruct (G initialWorld) as (H1 & H2 & H3); [|exact R|].
  - repeat split; cbn; [lia | intros H; discriminate H ..].
  - repeat split; [exact H1| |].
    + intros A. now apply isAutoStep_waiting, H2.
    + intros A. now apply H3, isAutoStep_waiting.
Qed.

Lemma auto_timer_only_on_waiting_step_witness :
  let w := mkWorld (mkState 7 40 "" None None false false None false)
                   11600 [(13600%N, AutoStep)] in
  autoPending (timers w) <= 1
  /\ (autoPending (timers w) = 1 -> currentStep (st w) = waitStepIndex)
  /\ (currentStep (st w) = waitStepIndex ->
      autoPending (timers w) = 1 \/ advancePending (timers w) = true).
Proof.
  intro w. apply (auto_timer_only_on_waiting_step w).
  exists (firstn 16 toVideoScreen). vm_compute. reflexivity.
Defined.

(** ** The quiz *)

Lemma render_off_waiting_step (before : State) (w : World) :
  isAutoStep (st w) = false ->
  autoPending (timers w) = 0 ->
  render before w = w.
Proof.
  intros A P. unfold render. destruct (State_eq_dec before (st w)); auto.
  unfold autoAdvanceEffect. rewrite A. destruct w as [s t q]. f_equal.
  cbn [timers] in *. unfold clearAutoTimer, autoPending in *.
  induction q as [|[d c] q IH]; cbn in *; [reflexivity|].
  destruct (is_auto c); cbn in *; [discriminate|]. f_equal. auto.
Qed.

Lemma not_waiting_step (s : State) :
  currentStep s <> waitStepIndex -> isAutoStep s = false.
Proof.
  intros H. destruct (isAutoStep s) eqn:A; [|reflexivity].
  now apply isAutoStep_waiting in A.
Qed.

(** X7.  An answer to the quiz, whichever option it is: the submit files
    the report to the application 2 s ahead and locks the buttons; the
    report adds 50 to the score exactly when the option is the correct
    one, and files the advance another 2 s ahead; 4 s after the submit
    the step pointer is one further, feedback and verdict are cleared and
    nothing is pending. *)
Theorem quiz_answer_scores_then_advances
        (o : string) (q : QuizState) (w : World) :
  currentStep (st w) = quizStepIndex ->
  timers w = [] ->
  localIsCorrect q = None ->
  exists q' w1 w2 w3,
    submit (selectOption o q) w = (q', w1)
    /\ buttonsDisabled q' = true
    /\ localIsCorrect q' = Some (o =? correctAnswer)
    /\ timers w1 = [((now w + 2000)%N, QuizComplete (o =? correctAnswer))]
    /\ exec w1 Fire = Some w2
    /\ score (st w2) = score (st w) + (if o =? correctAnswer then 50 else 0)
    /\ isCorrectAction (st w2) = Some (o =? correctAnswer)
    /\ currentStep (st w2) = quizStepIndex
    /\ exec w2 Fire = Some w3
    /\ currentStep (st w3) = quizStepIndex + 1
    /\ score (st w3) = score (st w2)
    /\ feedbackMessage (st w3) = ""
    /\ isCorrectAction (st w3) = None
    /\ now w3 = (now w + 4000)%N
    /\ timers w3 = [].
Proof.
  intros Hs Ht Hq.
  assert (Q : quizStepIndex = 16) by reflexivity. rewrite Q in *.
  destruct w as [s t ts]. cbn [st timers now] in *. subst ts.
  assert (M : forall a b : N, N.max a (a + b) = (a + b)%N) by (intros; lia).
  unfold submit, selectOption, buttonsDisabled, handleSubmit.
  rewrite Hq. cbn [selectedOption localIsCorrect localFeedback].
  set (b := o =? correctAnswer).
  eexists _, _, _, _.
  split; [reflexivity|]. split; [reflexivity|]. split; [reflexivity|].
  split; [reflexivity|].
  cbn [handle setTimeout schedule exec fire timers option_map snd st now
       runCallback].
  rewrite M.
  rewrite render_off_waiting_step;
    [| apply not_waiting_step; unfold onQuizComplete;
       destruct b; cbn; rewrite Hs; discriminate
     | unfold onQuizComplete; destruct b; reflexivity ].
  split; [reflexivity|].
  split; [unfold onQuizComplete; destruct b; cbn; lia|].
  split; [unfold onQuizComplete; destruct b; reflexivity|].
  split; [unfold onQuizComplete; destruct b; exact Hs|].
  assert (T : timers (onQuizComplete b (mkWorld s (t + 2000) []))
              = [((t + 2000 + 2000)%N, Advance)])
    by (unfold onQuizComplete; destruct b; reflexivity).
  assert (N' : now (onQuizComplete b (mkWorld s (t + 2000) []))
               = (t + 2000)%N)
    by (unfold onQuizComplete; destruct b; reflexivity).
  assert (S' : currentStep (st (onQuizComplete b (mkWorld s (t + 2000) [])))
               = 16)
    by (unfold onQuizComplete; destruct b; exact Hs).
  unfold fire at 1. rewrite T, N', M. cbn [option_map snd runCallback].
  unfold upd. cbn [st now timers].
  rewrite render_off_waiting_step;
    [| apply not_waiting_step; intros C;
       assert (D : waitStepIndex = 16 + 1)
         by exact (eq_trans (eq_sym C) (f_equal (fun n => n + 1) S'));
       discriminate D
     | reflexivity ].
  split; [reflexivity|]. cbn [st now timers].
  split; [exact (f_equal (fun n => n + 1) S')|].
  repeat split. lia.
Qed.

Lemma quiz_answer_scores_then_advances_witness :
  let w := mkWorld (mkState 16 100 "" None None false true (Some "good")
                            false) 41500 [] in
  exists q' w1 w2 w3,
    submit (selectOption correctAnswer initialQuiz) w = (q', w1)
    /\ buttonsDisabled q' = true
    /\ localIsCorrect q' = Some (correctAnswer =? correctAnswer)
    /\ timers w1
       = [((now w + 2000)%N, QuizComplete (correctAnswer =? correctAnswer))]
    /\ exec w1 Fire = Some w2
    /\ score (st w2)
       = score (st w) + (if correctAnswer =? correctAnswer then 50 else 0)
    /\ isCorrectAction (st w2) = Some (correctAnswer =? correctAnswer)
    /\ currentStep (st w2) = quizStepIndex
    /\ exec w2 Fire = Some w3
    /\ currentStep (st w3) = quizStepIndex + 1
    /\ score (st w3) = score (st w2)
    /\ feedbackMessage (st w3) = ""
    /\ isCorrectAction (st w3) = None
    /\ now w3 = (now w + 4000)%N
    /\ timers w3 = [].
Proof.
  intro w.
  apply (quiz_answer_scores_then_advances correctAnswer initialQuiz w);
    reflexivity.
Defined.

End SmearFacts.

(** * Further facts about the safety simulation *)

Section LabFacts.

Import SafetyLab LabView.

(** ** The release of a dragged object *)

(** X8.  Every release ends the drag, and the release of a cylinder
    that is empty when the handler starts can only fill it: the guards of
    the bench, the balance and the bin read the [simState] of the render,
    so one release never both fills the cylinder and places, weighs or
    empties it; it is filled exactly when the cylinder is released near
    the sink. *)
Theorem release_of_empty_cylinder_only_fills (r : Release) (s : State) :
  let x := simState s in
  let x' := simState (result (onPointerUp r s)) in
  truthy (dragging x') = false
  /\ (cylinderFilled x = false ->
      cylinderAtBench x' = cylinderAtBench x
      /\ cylinderWeighed x' = cylinderWeighed x
      /\ wasteDisposed x' = wasteDisposed x
      /\ (cylinderFilled x' = true <->
          dragging x = Some "cylinder" /\ nearSink r = true)).
Proof.
  cbv zeta. unfold onPointerUp.
  destruct (dragging (simState s)) as [name|] eqn:D.
  2:{ cbn. rewrite D. split; [reflexivity|]. intros F. rewrite F.
      repeat split; try discriminate. now intros [[=] _]. }
  destruct (name =? "") eqn:E.
  { cbn. rewrite D. cbn. rewrite E. split; [reflexivity|]. intros F.
    rewrite F. repeat split; try discriminate.
    intros [[= ->] _]. discriminate E. }
  destruct (negb (existsb (String.eqb name) objects)) eqn:O.
  { cbn. split; [reflexivity|]. intros F. rewrite F.
    repeat split; try discriminate.
    intros [[= ->] _]. discriminate O. }
  split.
  { reflexivity. }
  intros F. destruct s as [[c g b p f ab wd dp dr] n fb m].
  cbn in D, F |- *. subst f dr.
  destruct (name =? "cylinder") eqn:C.
  - apply String.eqb_eq in C. subst name.
    destruct r as [[] [] [] []]; cbn; repeat split; auto;
      try discriminate; try (now intros [_ [=]]).
  - destruct (name =? "pipette"); cbn;
      (repeat split; try discriminate);
      intros [[= ->] _]; discriminate C.
Qed.

(** ** The feedback banner *)

Lemma messages_not_red (m : string) :
  In m messages -> includes "Incorrect" m = false.
Proof.
  unfold messages. cbn [In].
  intros H; repeat (destruct H as [<-|H]; [vm_compute; reflexivity|]).
  contradiction.
Qed.

Lemma onPointerUp_feedback (r : Release) (s : State) :
  In (feedback s) messages ->
  In (feedback (result (onPointerUp r s))) messages.
Proof.
  intros H. unfold onPointerUp.
  destruct (dragging (simState s)) as [name|]; [|exact H].
  destruct (name =? ""); [exact H|].
  destruct (negb (existsb (String.eqb name) objects)); [exact H|].
  assert (M : forall m, In m (tl messages) -> In m messages)
    by (intros m Hm; right; exact Hm).
  destruct (name =? "cylinder"), (name =? "pipette"),
    (cylinderFilled (simState s)), r as [[] [] [] []];
    cbn [when andb negb result replaced setSimState setFeedback feedback
         nearSink onBench nearBalance nearBin];
    first [ exact H | apply M; cbn; tauto ].
Qed.

Lemma handle_feedback (e : Event) (s : State) :
  In (feedback s) messages ->
  In (feedback (result (handle e s))) messages.
Proof.
  intros H.
  destruct e as [| |picked|r|hit|]; cbn [handle].
  - unfold handleWearLabCoat.
    destruct (negb (wearingLabCoat (simState s))); [cbn; tauto | exact H].
  - unfold handleWearGoggles.
    destruct (negb (wearingGoggles (simState s))); [cbn; tauto | exact H].
  - unfold onPointerDown.
    destruct (truthy (dragging (simState s))); [exact H|].
    destruct picked as [name|]; [|exact H].
    match goal with
    | |- context [if ?c then _ else _] => destruct c
    end; exact H.
  - now apply onPointerUp_feedback.
  - unfold onBalanceClick. destruct hit; [|exact H].
    destruct (Nat.eqb (currentStep s) 1
              && negb (balanceCalibrated (simState s))); [cbn; tauto|].
    destruct (cylinderFilled (simState s) && Nat.eqb (currentStep s) 3);
      [cbn; tauto | exact H].
  - exact H.
Qed.

Lemma exec_feedback (w w' : World) (l : Label) :
  exec w l = Some w' ->
  In (feedback (st w)) messages ->
  In (feedback (st w')) messages.
Proof.
  unfold exec. destruct (negb (mounted (st w))); [discriminate|].
  destruct l as [t e|].
  - destruct (N.leb (now w) t && none_due_before t (timers w)
              && enabled (st w) e); [|discriminate].
    intros [= <-] H.
    destruct (simStateReplaced (handle e (st w)));
      [rewrite st_stepProgressionEffect|]; cbn [st];
      now apply handle_feedback.
  - destruct (timers w) as [|[d [c]] q]; [discriminate|].
    intros [= <-] H. cbn [st]. unfold runCallback.
    match goal with
    | |- context [if ?b then _ else _] => destruct b
    end; cbn; repeat first [left; reflexivity | right].
Qed.

Lemma reachable_feedback (w : World) :
  reachable w -> In (feedback (st w)) messages.
Proof.
  intros [ls R].
  assert (G : forall w0, In (feedback (st w0)) messages ->
                         run ls w0 = Some w ->
                         In (feedback (st w)) messages).
  { clear R. induction ls as [|l ls IH]; intros w0 H0; cbn.
    - now intros [= <-].
    - destruct (exec w0 l) as [w1|] eqn:E; [|discriminate].
      apply IH. eapply exec_feedback; eauto. }
  apply (G initialWorld); [cbn; tauto | exact R].
Qed.

(** X9.  The feedback banner is never red: no message that a handler
    or the progress callback sets includes the word the banner tests
    for, so in every reachable world the banner is hidden or green. *)
Theorem banner_is_never_red (w : World) :
  reachable w -> feedbackBanner (st w) <> Red.
Proof.
  intros R. apply reachable_feedback, messages_not_red in R.
  unfold feedbackBanner. rewrite R.
  destruct (feedback (st w) =? ""); discriminate.
Qed.

Lemma banner_is_never_red_witness :
  feedbackBanner
    (mkState (mkSim true true true false true false false false None)
             2 "Cylinder filled with 50ml of water!" false)
  <> Red.
Proof.
  apply (banner_is_never_red
           (mkWorld
              (mkState (mkSim true true true false true false false false None)
                       2 "Cylinder filled with 50ml of water!" false)
              2100 [])).
  exists cylinderFilledAtStepTwo. vm_compute. reflexivity.
Defined.

(** ** What holds in every reachable world *)

Lemma Forall_schedule {A : Type} (P : N * A -> Prop) (d : N) (a : A)
      (q : list (N * A)) :
  P (d, a) -> Forall P q -> Forall P (schedule d a q).
Proof.
  intros Ha. induction 1 as [|[d' a'] q Hx Hq IH]; cbn.
  - repeat constructor. exact Ha.
  - destruct (N.leb d' d); repeat constructor; auto.
Qed.

Lemma pendingOK_mono (s s' : State) (e : N * Callback) :
  currentStep s <= currentStep s' ->
  (wasteDisposed (simState s) = true ->
   wasteDisposed (simState s') = true) ->
  pendingOK s e -> pendingOK s' e.
Proof.
  unfold pendingOK. destruct (snd e) as [c]. intros L D [A B].
  split; [lia | auto].
Qed.

Lemma handle_showModal (e : Event) (s : State) :
  showModal (result (handle e s)) = true -> showModal s = true.
Proof.
  destruct e as [| |picked|r|hit|]; cbn [handle].
  - unfold handleWearLabCoat.
    destruct (negb (wearingLabCoat (simState s))); auto.
  - unfold handleWearGoggles.
    destruct (negb (wearingGoggles (simState s))); auto.
  - unfold onPointerDown.
    destruct (truthy (dragging (simState s))); auto.
    destruct picked as [name|]; auto.
    match goal with
    | |- context [if ?c then _ else _] => destruct c
    end; auto.
  - unfold onPointerUp.
    destruct (dragging (simState s)) as [name|]; auto.
    destruct (name =? ""); auto.
    destruct (negb (existsb (String.eqb name) objects)); auto.
    destruct (name =? "cylinder"), (name =? "pipette"),
      (cylinderFilled (simState s)), r as [[] [] [] []]; auto.
  - unfold onBalanceClick. destruct hit; auto.
    destruct (Nat.eqb (currentStep s) 1
              && negb (balanceCalibrated (simState s))); auto.
    destruct (cylinderFilled (simState s) && Nat.eqb (currentStep s) 3);
      auto.
  - discriminate.
Qed.

(** Before the third step nothing can be picked up. *)
Lemma handle_low_step (e : Event) (s : State) :
  currentStep s < 2 ->
  dragging (simState s) = None ->
  dragging (simState (result (handle e s))) = None.
Proof.
  intros L D.
  destruct e as [| |picked|r|hit|]; cbn [handle].
  - unfold handleWearLabCoat.
    destruct (negb (wearingLabCoat (simState s))); auto.
  - unfold handleWearGoggles.
    destruct (negb (wearingGoggles (simState s))); auto.
  - unfold onPointerDown. rewrite D. cbn [truthy].
    destruct picked as [name|]; auto.
    destruct (currentStep s) as [|[|n]]; [| |lia];
      cbn [Nat.eqb orb andb]; rewrite !andb_false_r; auto.
  - unfold onPointerUp. rewrite D. auto.
  - unfold onBalanceClick. destruct hit; auto.
    destruct (Nat.eqb (currentStep s) 1
              && negb (balanceCalibrated (simState s))); auto.
    destruct (cylinderFilled (simState s) && Nat.eqb (currentStep s) 3);
      auto.
  - auto.
Qed.

(** Once a step before the third is valid, no handler replaces
    [simState] any more. *)
Lemma handle_settled (e : Event) (s : State) :
  (currentStep s = 0 \/ (currentStep s = 1
                         /\ balanceCalibrated (simState s) = true)) ->
  dressed (simState s) ->
  dragging (simState s) = None ->
  simStateReplaced (handle e s) = false.
Proof.
  intros L [C G] D.
  destruct e as [| |picked|r|hit|]; cbn [handle].
  - unfold handleWearLabCoat. now rewrite C.
  - unfold handleWearGoggles. now rewrite G.
  - unfold onPointerDown. rewrite D. cbn [truthy].
    destruct picked as [name|]; auto.
    destruct L as [-> | [-> _]]; cbn [Nat.eqb orb andb];
      rewrite !andb_false_r; auto.
  - unfold onPointerUp. rewrite D. auto.
  - unfold onBalanceClick. destruct hit; auto.
    destruct L as [-> | [-> B]]; [|rewrite B]; cbn [Nat.eqb negb andb];
      rewrite ?andb_false_r; auto.
  - auto.
Qed.

Lemma user_exec (w w' : World) (t : N) (e : Event) :
  exec w (User t e) = Some w' ->
  st w' = result (handle e (st w))
  /\ (timers w' = timers w
      \/ (simStateReplaced (handle e (st w)) = true
          /\ exists cur,
              nth_error PROCEDURE (currentStep (st w')) = Some cur
              /\ validate cur (simState (st w')) = true
              /\ timers w'
                 = schedule (t + 850)%N (Progress (currentStep (st w')))
                            (timers w))).
Proof.
  unfold exec. destruct (negb (mounted (st w))); [discriminate|].
  destruct (N.leb (now w) t && none_due_before t (timers w)
            && enabled (st w) e); [|discriminate].
  intros [= <-].
  destruct (simStateReplaced (handle e (st w))); [|split; auto].
  rewrite st_stepProgressionEffect. cbn [st]. split; [reflexivity|].
  unfold stepProgressionEffect. cbn [st].
  destruct (nth_error PROCEDURE (currentStep (result (handle e (st w)))))
    as [cur|] eqn:Hc; [|now left].
  destruct (validate cur (simState (result (handle e (st w))))) eqn:V;
    [|now left].
  right. split; [reflexivity|]. exists cur. repeat split; auto.
Qed.

Lemma exec_invariant (w w' : World) (l : Label) :
  exec w l = Some w' -> invariant w -> invariant w'.
Proof.
  assert (LS : lastStepIndex = 4) by reflexivity.
  destruct l as [t e|].
  - intros E [IM IS]. cbv zeta in IM, IS.
    destruct (user_exec _ _ _ _ E) as [Hst Ht].
    destruct (handle_keeps e (st w)) as [Hc K].
    rewrite <- Hst in Hc, K.
    pose proof K as (Kc & Kg & Kb & Kw).
    unfold invariant. cbv zeta. split.
    + intros M. rewrite Hst in M. apply handle_showModal in M.
      destruct (IM M) as [A B]. rewrite Hc. auto.
    + rewrite Hc.
      assert (KD : dressed (simState (st w)) -> dressed (simState (st w')))
        by (intros [A B]; split; auto).
      destruct (currentStep (st w)) as [|[|n]] eqn:N0.
      * destruct IS as [D T].
        split; [rewrite Hst; apply handle_low_step; [lia | exact D]|].
        destruct T as [T|[Dr [d T]]].
        -- destruct Ht as [Ht|[_ (cur & Hn & V & Ht)]];
             [left; congruence|].
           right. rewrite Hc in Hn, Ht. cbn in Hn.
           injection Hn as <-. cbn in V.
           apply andb_prop in V. split; [exact V|].
           rewrite T in Ht. cbn in Ht. eauto.
        -- right. split; [auto|].
           destruct Ht as [Ht|[R _]]; [exists d; congruence|].
           rewrite handle_settled in R; auto. discriminate R.
      * destruct IS as (D & Dr & T).
        split; [rewrite Hst; apply handle_low_step; [lia | exact D]|].
        split; [auto|].
        destruct T as [T|[B [d T]]].
        -- destruct Ht as [Ht|[_ (cur & Hn & V & Ht)]];
             [left; congruence|].
           right. rewrite Hc in Hn, Ht. cbn in Hn.
           injection Hn as <-. cbn in V. split; [exact V|].
           rewrite T in Ht. cbn in Ht. eauto.
        -- right. split; [auto|].
           destruct Ht as [Ht|[R _]]; [exists d; congruence|].
           rewrite handle_settled in R; auto. discriminate R.
      * destruct IS as (Dr & B & F).
        split; [auto|]. split; [auto|].
        assert (F' : Forall (pendingOK (st w')) (timers w)).
        { eapply Forall_impl; [|exact F].
          intros a. apply pendingOK_mono; [lia | exact Kw]. }
        destruct Ht as [Ht|[_ (cur & Hn & V & Ht)]]; [now rewrite Ht|].
        rewrite Ht. apply Forall_schedule; [|exact F'].
        unfold pendingOK. cbn [snd]. split; [lia|].
        rewrite LS, Hc. intros L4.
        assert (n = 2).
        { assert (X : nth_error PROCEDURE (currentStep (st w')) <> None)
            by congruence.
          apply nth_error_Some in X. cbn in X. lia. }
        subst n. rewrite Hc in Hn. cbn in Hn. injection Hn as <-.
        exact V.
  - unfold exec. destruct (negb (mounted (st w))) eqn:Mo; [discriminate|].
    destruct (timers w) as [|[d [c]] q] eqn:T; [discriminate|].
    intros [= <-] [IM IS]. cbv zeta in IM, IS. rewrite T in IS.
    unfold invariant. cbv zeta. cbn [st timers]. unfold runCallback.
    change (List.length PROCEDURE - 1) with 4.
    destruct (Nat.ltb c 4) eqn:C4.
    + apply Nat.ltb_lt in C4. cbn.
      split.
      { intros M. destruct (IM M) as [A B]. split; [lia | exact B]. }
      destruct (currentStep (st w)) as [|[|n]] eqn:N0; cbn.
      * destruct IS as [D [T'|[Dr [d' T']]]]; [discriminate|].
        injection T' as ? ? ?; subst. auto.
      * destruct IS as (D & Dr & [T'|[B [d' T']]]); [discriminate|].
        injection T' as ? ? ?; subst. auto.
      * destruct IS as (Dr & B & F). split; [auto|]. split; [auto|].
        inversion F as [|x y _ F']. subst.
        eapply Forall_impl; [|exact F'].
        intros a. apply pendingOK_mono; cbn; [rewrite N0; lia | auto].
    + apply Nat.ltb_ge in C4. cbn.
      destruct (currentStep (st w)) as [|[|n]] eqn:N0.
      * destruct IS as [D [T'|[Dr [d' T']]]]; [discriminate|].
        inversion T'; subst; lia.
      * destruct IS as (D & Dr & [T'|[B [d' T']]]); [discriminate|].
        inversion T'; subst; lia.
      * destruct IS as (Dr & B & F).
        inversion F as [|x y P F']. subst.
        unfold pendingOK in P. cbn [snd] in P. destruct P as [P1 P2].
        rewrite LS in *. rewrite N0 in P1.
        split; [intros _; split; [lia | auto]|].
        split; [auto|]. split; [auto|].
        eapply Forall_impl; [|exact F'].
        intros a. apply pendingOK_mono; cbn; [rewrite N0; lia | auto].
Qed.

Lemma reachable_invariant (w : World) : reachable w -> invariant w.
Proof.
  intros [ls R].
  assert (G : forall w0, invariant w0 -> run ls w0 = Some w -> invariant w).
  { clear R. induction ls as [|l ls IH]; intros w0 H0; cbn.
    - now intros [= <-].
    - destruct (exec w0 l) as [w1|] eqn:E; [|discriminate].
      apply IH. eapply exec_invariant; eauto. }
  apply (G initialWorld); [|exact R].
  split; cbn; [discriminate | auto].
Qed.

(** X10.  The completion modal shows only at or after the last step,
    and then the coat and the goggles are worn, the balance is calibrated
    and the waste is disposed. *)
Theorem modal_shows_only_after_disposal (w : World) :
  reachable w ->
  showModal (st w) = true ->
  lastStepIndex <= currentStep (st w)
  /\ wearingLabCoat (simState (st w)) = true
  /\ wearingGoggles (simState (st w)) = true
  /\ balanceCalibrated (simState (st w)) = true
  /\ wasteDisposed (simState (st w)) = true.
Proof.
  intros R M. destruct (reachable_invariant w R) as [IM IS].
  cbv zeta in IM, IS. destruct (IM M) as [L D].
  assert (LS : lastStepIndex = 4) by reflexivity. rewrite LS in *.
  destruct (currentStep (st w)) as [|[|n]]; [lia | lia |].
  destruct IS as ([C G] & B & _). repeat split; auto.
Qed.

Lemma modal_shows_only_after_disposal_witness :
  let w := mkWorld
             (mkState (mkSim true true true false false false false true None)
                4
                "Congratulations! You have completed all safety & handling steps."
                true)
             4150 [] in
  lastStepIndex <= currentStep (st w)
  /\ wearingLabCoat (simState (st w)) = true
  /\ wearingGoggles (simState (st w)) = true
  /\ balanceCalibrated (simState (st w)) = true
  /\ wasteDisposed (simState (st w)) = true.
Proof.
  intro w. apply (modal_shows_only_after_disposal w).
  - exists heldAcrossSteps. vm_compute. reflexivity.
  - reflexivity.
Defined.

(** ** The last step *)

Lemma handle_unreplaced (e : Event) (s : State) :
  simStateReplaced (handle e s) = false ->
  simState (result (handle e s)) = simState s.
Proof.
  destruct e as [| |picked|r|hit|]; cbn [handle].
  - unfold handleWearLabCoat.
    destruct (negb (wearingLabCoat (simState s))); [discriminate|auto].
  - unfold handleWearGoggles.
    destruct (negb (wearingGoggles (simState s))); [discriminate|auto].
  - unfold onPointerDown.
    destruct (truthy (dragging (simState s))); auto.
    destruct picked as [name|]; auto.
    match goal with
    | |- context [if ?c then _ else _] => destruct c
    end; [discriminate|auto].
  - unfold onPointerUp.
    destruct (dragging (simState s)) as [name|]; auto.
    destruct (name =? ""); auto.
    destruct (negb (existsb (String.eqb name) objects)); discriminate.
  - unfold onBalanceClick. destruct hit; auto.
    destruct (Nat.eqb (currentStep s) 1
              && negb (balanceCalibrated (simState s))); [discriminate|].
    destruct (cylinderFilled (simState s) && Nat.eqb (currentStep s) 3);
      [discriminate|auto].
  - auto.
Qed.

(** At the last step, with nothing dragged, no handler replaces
    [simState]: nothing can be picked up any more. *)
Lemma handle_last_step (e : Event) (s : State) :
  currentStep s = lastStepIndex ->
  dressed (simState s) ->
  truthy (dragging (simState s)) = false ->
  simStateReplaced (handle e s) = false.
Proof.
  intros L [C G] D. change lastStepIndex with 4 in L.
  destruct e as [| |picked|r|hit|]; cbn [handle].
  - unfold handleWearLabCoat. now rewrite C.
  - unfold handleWearGoggles. now rewrite G.
  - unfold onPointerDown. rewrite D, L.
    destruct picked as [name|]; auto.
    cbn [Nat.eqb orb andb]. rewrite !andb_false_r. auto.
  - unfold onPointerUp.
    destruct (dragging (simState s)) as [name|]; auto.
    cbn in D. destruct (name =? ""); [auto | discriminate D].
  - unfold onBalanceClick. destruct hit; auto.
    rewrite L. cbn [Nat.eqb andb]. rewrite andb_false_r. auto.
  - auto.
Qed.

(** X11.  The last step is a dead end once it is current with nothing
    dragged and no callback pending: whatever the user does then,
    [simState] stays as it is, no callback is filed and the completion
    modal does not come up.  The cylinder can be picked up at the third
    and fourth step only, so waste that is not disposed by then never
    is. *)
Theorem last_step_without_drag_is_dead_end
        (w w' : World) (ls : list Label) :
  reachable w ->
  currentStep (st w) = lastStepIndex ->
  truthy (dragging (simState (st w))) = false ->
  timers w = [] ->
  run ls w = Some w' ->
  simState (st w') = simState (st w)
  /\ currentStep (st w') = lastStepIndex
  /\ timers w' = []
  /\ (showModal (st w') = true -> showModal (st w) = true).
Proof.
  intros R L D T.
  assert (Dr : dressed (simState (st w))).
  { destruct (reachable_invariant w R) as [_ IS]. cbv zeta in IS.
    rewrite L in IS. apply IS. }
  clear R. revert w L D T Dr.
  induction ls as [|l ls IH]; intros w L D T Dr; cbn.
  - intros [= <-]. repeat split; auto.
  - destruct (exec w l) as [w1|] eqn:E; [|discriminate].
    intros Hr.
    assert (S1 : simState (st w1) = simState (st w)
                 /\ currentStep (st w1) = currentStep (st w)
                 /\ timers w1 = []
                 /\ (showModal (st w1) = true -> showModal (st w) = true)).
    { destruct l as [t e|].
      - destruct (user_exec _ _ _ _ E) as [Hst Ht].
        pose proof (handle_last_step e (st w) L Dr D) as NR.
        rewrite Hst. repeat split.
        + now apply handle_unreplaced.
        + apply handle_keeps.
        + destruct Ht as [Ht|[Re _]]; congruence.
        + apply handle_showModal.
      - unfold exec in E. rewrite T in E.
        destruct (negb (mounted (st w))); discriminate. }
    destruct S1 as (A & B & C & M).
    destruct (IH w1) as (A' & B' & C' & M');
      [congruence | now rewrite A | exact C | now rewrite A | exact Hr |].
    split; [congruence|]. split; [exact B'|]. split; [exact C'|].
    intros H. apply M, M', H.
Qed.

Lemma last_step_without_drag_is_dead_end_witness :
  let w := mkWorld
             (mkState (mkSim true true true false true true true false None)
                      4 "" false)
             4950 [] in
  let w' := mkWorld (st w) 7000 [] in
  run asInstructed initialWorld = Some w
  /\ wasteDisposed (simState (st w)) = false
  /\ simState (st w') = simState (st w)
  /\ currentStep (st w') = lastStepIndex
  /\ timers w' = []
  /\ (showModal (st w') = true -> showModal (st w) = true).
Proof.
  intros w w'.
  split; [vm_compute; reflexivity|]. split; [reflexivity|].
  apply (last_step_without_drag_is_dead_end w w'
           [ User 6000 (PointerDown (Some "cylinder"));
             User 6100 (PointerUp atBin);
             User 7000 (BalanceClick true) ]%N).
  - exists asInstructed. vm_compute. reflexivity.
  - reflexivity.
  - reflexivity.
  - reflexivity.
  - vm_compute. reflexivity.
Defined.

End LabFacts.

(** * The active tool after a drop or a create-smear action *)

Section ActiveTool.

Import BloodSmear SmearView.

(** A target area takes drops only while the tool of its step is held. *)
Lemma drop_enabled_tool_held (s : State) (g : string) :
  enabled s (Drop g) = true ->
  truthy (activeTool s) = true
  /\ exists p, currentProcedure s = Some p.
Proof.
  cbn [enabled]. intros En.
  apply andb_prop in En. destruct En as [_ En].
  unfold isCurrentlyActiveTarget in En.
  destruct (currentProcedure s) as [p|] eqn:Hp; [|discriminate].
  apply andb_prop in En. destruct En as [_ Tl].
  pose proof (proj2 (currentProcedure_names _ _ Hp)) as Nm.
  pose proof (strict_eq_undef_true _ _ Tl) as Et.
  split; [|eauto].
  destruct (tool p) as [t|] eqn:Hto;
    [|destruct (activeTool s); discriminate].
  rewrite Et. cbn. destruct (t =? "") eqn:E; [|reflexivity].
  apply String.eqb_eq in E. subst t. contradiction.
Qed.

(** The Create Smear button is on screen only when the smear can be
    made. *)
Lemma smear_enabled_allowed (s : State) :
  enabled s ClickCreateSmear = true ->
  smearAllowed s = true
  /\ exists p, currentProcedure s = Some p
               /\ is_action p "click_create_smear" = true.
Proof.
  cbn [enabled]. intros En.
  apply andb_prop in En. destruct En as [En Bl].
  apply andb_prop in En. destruct En as [En To].
  apply andb_prop in En. destruct En as [_ Id].
  destruct (stepIdIs_true _ _ Id) as (p & Hp & Ip).
  pose proof (currentProcedure_wellFormed _ _ Hp) as (_ & _ & Sm & _).
  split; [|eauto].
  unfold smearAllowed. unfold stepIdIs in Id. now rewrite To, Bl, Id.
Qed.

(** C9.  Every drop event and every create-smear action the application
    processes leaves [activeTool] null: a drop reaches [handleDrop] only
    while a tool is held, and [setActiveTool(null)] stands after its
    switch, so it runs whether the drop is accepted or turned down; the
    Create Smear button is on screen only when the smear can be made, so
    [handleCreateSmear] takes its success branch, which clears the
    tool. *)
Theorem activeTool_null_after_interaction
        (w w' : World) (t : N) (e : Event) :
  (exists g, e = Drop g) \/ e = ClickCreateSmear ->
  exec w (User t e) = Some w' ->
  activeTool (st w') = None.
Proof.
  intros He. cbn [exec].
  destruct (N.leb (now w) t && none_due_before t (timers w)) ;
    cbn [andb]; [|discriminate].
  destruct (enabled (st w) e) eqn:En; [|discriminate].
  intros [= <-]. rewrite st_render.
  set (w0 := mkWorld (st w) t (timers w)).
  destruct He as [[g ->]| ->]; cbn [handle].
  - destruct (drop_enabled_tool_held _ _ En) as [Ht [p Hp]].
    now apply (handleDrop_clears_activeTool g w0 p).
  - destruct (smear_enabled_allowed _ En) as [Al (p & Hp & Ia)].
    unfold handleAction. change (st w0) with (st w). rewrite Hp.
    apply is_action_true in Ia.
    unfold actionSwitch, is_action. rewrite Ia. cbn.
    assert (A2 : smearAllowed (st (upd clearFeedback w0)) = true)
      by (rewrite <- Al; apply smearAllowed_ext; reflexivity).
    unfold handleCreateSmear. rewrite A2. reflexivity.
Qed.

Lemma activeTool_null_after_interaction_witness :
  let turnedDown :=
    mkWorld (mkState 9 40 "" None (Some "clean_slide") false false None
                     false) 15000 [] in
  let smearMade :=
    mkWorld (mkState 11 60 "" None (Some "spreader_slide") false true None
                     false) 21500 [] in
  run slideWithoutDrop initialWorld = Some turnedDown
  /\ run (firstn 25 toVideoScreen) initialWorld = Some smearMade
  /\ (exists w',
        exec turnedDown (User 15100 (Drop "blood_drop")) = Some w'
        /\ isCorrectAction (st w') = Some false
        /\ activeTool (st w') = None)
  /\ (exists w',
        exec smearMade (User 22000 ClickCreateSmear) = Some w'
        /\ isCorrectAction (st w') = Some true
        /\ activeTool (st w') = None).
Proof.
  intros turnedDown smearMade.
  split; [vm_compute; reflexivity|]. split; [vm_compute; reflexivity|].
  split.
  - eexists. split; [vm_compute; reflexivity|]. split; [reflexivity|].
    apply (activeTool_null_after_interaction
             turnedDown _ 15100 (Drop "blood_drop")).
    + left. exists "blood_drop". reflexivity.
    + vm_compute. reflexivity.
  - eexists. split; [vm_compute; reflexivity|]. split; [reflexivity|].
    apply (activeTool_null_after_interaction
             smearMade _ 22000 ClickCreateSmear).
    + right. reflexivity.
    + vm_compute. reflexivity.
Defined.

End ActiveTool.
